(** * Salus Smart Home integration: a shallow embedding

    The development follows the layout of the integration:

    - [const]        custom_components/salus/const.py
    - [config_flow]  custom_components/salus/config_flow.py  (the EUID validator)
    - [coordinator]  custom_components/salus/coordinator.py
    - [climate]      custom_components/salus/climate.py

    Python values are modelled as follows.  A [str] is a [string], one
    [ascii] per character.  A [dict] is an insertion-ordered association
    list with unique keys ([PyDict]).  A coroutine is a function on the
    state of the world that either returns a value or raises an exception
    ([Py.M]).  The pyit600 gateway library is not part of the integration:
    it is an interface ([GatewayLibrary]) whose operations act on an
    arbitrary environment. *)

From Stdlib Require Import Bool List String Ascii Arith.
From Stdlib Require Import Floats.
Import ListNotations.
Open Scope string_scope.

(** ** Python dictionaries *)

Module PyDict.

Section Dict.
Context {K V : Type}.
Variable eqb : K -> K -> bool.

Definition t := list (K * V).

(** [d.get(k)] *)
Fixpoint get (k : K) (d : t) : option V :=
  match d with
  | [] => None
  | (k', v) :: d' => if eqb k k' then Some v else get k d'
  end.

(** [d[k] = v]: an existing key keeps its position, a new key goes last. *)
Fixpoint set (k : K) (v : V) (d : t) : t :=
  match d with
  | [] => [(k, v)]
  | (k', v') :: d' => if eqb k k' then (k', v) :: d' else (k', v') :: set k v d'
  end.

(** The literal [{k1: v1, ..., kn: vn}]. *)
Definition literal (kvs : list (K * V)) : t :=
  fold_left (fun d kv => set (fst kv) (snd kv) d) kvs [].

(** [d.get(k, dflt)] *)
Definition get_default (k : K) (dflt : V) (d : t) : V :=
  match get k d with Some v => v | None => dflt end.

(** [d.items()], [list(d)] and [len(d)] *)
Definition items (d : t) : list (K * V) := d.
Definition keys (d : t) : list K := map fst d.
Definition len (d : t) : nat := List.length d.
End Dict.

Arguments t : clear implicits.

End PyDict.

(** ** Constants (const.py) *)

Module const.

Definition DOMAIN := "salus".
Definition CONF_HOST := "host".
Definition CONF_EUID := "euid".
Definition DEFAULT_EUID := "0000000000000000".
Definition DEFAULT_SCAN_INTERVAL : nat := 30.
Definition PLATFORMS := ["climate"].

End const.

(** ** The EUID validator (config_flow.py) *)

Module config_flow.

(** The fragment of Python's [re] syntax that [EUID_REGEX] is written in:
    a sequence of anchors and counted character classes. *)
Inductive re_item :=
| Bol                                             (* ^ *)
| Eol                                             (* $ *)
| ClassN (ranges : list (ascii * ascii)) (n : nat). (* [a-b...]{n} *)

Definition regex := list re_item.

Definition in_range (c : ascii) (r : ascii * ascii) : bool :=
  ((nat_of_ascii (fst r) <=? nat_of_ascii c) &&
   (nat_of_ascii c <=? nat_of_ascii (snd r)))%nat.

Definition in_class (ranges : list (ascii * ascii)) (c : ascii) : bool :=
  existsb (in_range c) ranges.

(** Consume exactly [n] characters of the class. *)
Fixpoint match_class (ranges : list (ascii * ascii)) (n : nat) (s : string)
  : option string :=
  match n with
  | O => Some s
  | S n' =>
      match s with
      | String c s' => if in_class ranges c then match_class ranges n' s' else None
      | EmptyString => None
      end
  end.

Definition newline : ascii := ascii_of_nat 10.

(** [$] without [re.MULTILINE]: the end of the string, or the position
    just before a newline that is the last character of the string. *)
Definition at_eol (rest : string) : bool :=
  match rest with
  | EmptyString => true
  | String c EmptyString => Ascii.eqb c newline
  | _ => false
  end.

(** Match the items in sequence; [pos] is the number of characters already
    consumed and [rest] what follows them. *)
Fixpoint match_items (r : regex) (pos : nat) (rest : string) : bool :=
  match r with
  | [] => true
  | Bol :: r' => if Nat.eqb pos 0 then match_items r' pos rest else false
  | Eol :: r' => if at_eol rest then match_items r' pos rest else false
  | ClassN ranges n :: r' =>
      match match_class ranges n rest with
      | Some rest' => match_items r' (pos + n) rest'
      | None => false
      end
  end.

(** [bool(r.match(s))]: [match] tries the pattern at position 0 only and
    does not require the whole string to be consumed. *)
Definition re_match (r : regex) (s : string) : bool := match_items r 0 s.

(** [re.compile(r"^[0-9a-fA-F]{16}$")] *)
Definition hex_class : list (ascii * ascii) :=
  [("0", "9"); ("a", "f"); ("A", "F")]%char.

Definition EUID_REGEX : regex := [Bol; ClassN hex_class 16; Eol].

Definition validate_euid (euid : string) : bool := re_match EUID_REGEX euid.

(** What the docstring and the form describe: exactly sixteen hexadecimal
    digits. *)
Definition is_hex_digit (c : ascii) : bool := in_class hex_class c.

Definition is_euid_format (s : string) : bool :=
  Nat.eqb (String.length s) 16 && forallb is_hex_digit (list_ascii_of_string s).

End config_flow.

(** ** Python control flow: return values and exceptions *)

Module Py.

(** The exception classes the integration raises, catches or can meet.
    Every one of them derives from [Exception]; the first two are
    pyit600's, the next two the host's. *)
Inductive exn :=
| IT600AuthenticationError (msg : string)
| IT600ConnectionError (msg : string)
| ConfigEntryAuthFailed (msg : string)
| UpdateFailed (msg : string)
| AttributeError (msg : string)
| OtherException (cls msg : string).   (* e.g. TimeoutError from async_timeout *)

(** [type(err).__name__] *)
Definition exn_class (e : exn) : string :=
  match e with
  | IT600AuthenticationError _ => "IT600AuthenticationError"
  | IT600ConnectionError _ => "IT600ConnectionError"
  | ConfigEntryAuthFailed _ => "ConfigEntryAuthFailed"
  | UpdateFailed _ => "UpdateFailed"
  | AttributeError _ => "AttributeError"
  | OtherException cls _ => cls
  end.

(** [str(err)], as interpolated by the f-strings of the coordinator. *)
Definition exn_str (e : exn) : string :=
  match e with
  | IT600AuthenticationError m | IT600ConnectionError m
  | ConfigEntryAuthFailed m | UpdateFailed m | AttributeError m => m
  | OtherException _ m => m
  end.

Inductive res (A : Type) :=
| Return (a : A)
| Raise (e : exn).
Arguments Return {A} a.
Arguments Raise {A} e.

Definition raises_class {A} (cls : string) (r : res A) : bool :=
  match r with
  | Return _ => false
  | Raise e => String.eqb (exn_class e) cls
  end.

(** A coroutine over a state [S]: it runs to completion from a state and
    leaves a result and a new state. *)
Definition M (S A : Type) : Type := S -> res A * S.

Definition ret {S A} (a : A) : M S A := fun s => (Return a, s).
Definition raise {S A} (e : exn) : M S A := fun s => (Raise e, s).

Definition bind {S A B} (c : M S A) (k : A -> M S B) : M S B :=
  fun s =>
    match c s with
    | (Return a, s') => k a s'
    | (Raise e, s') => (Raise e, s')
    end.

(** [try: c  except Exception as err: h err] *)
Definition try_except {S A} (c : M S A) (h : exn -> M S A) : M S A :=
  fun s =>
    match c s with
    | (Return a, s') => (Return a, s')
    | (Raise e, s') => h e s'
    end.

Definition gets {S A} (f : S -> A) : M S A := fun s => (Return (f s), s).
Definition modify {S} (f : S -> S) : M S unit := fun s => (Return tt, f s).

End Py.

Import Py.

Declare Scope py_scope.
Delimit Scope py_scope with py.
Notation "x <- c ;; k" := (bind c (fun x => k))
  (at level 61, c at next level, right associativity) : py_scope.
Notation "c ;; k" := (bind c (fun _ => k))
  (at level 61, right associativity) : py_scope.

(** ** The gateway library (pyit600) as seen by the integration *)

Module pyit600.

(** A polled thermostat.  The attributes the entity probes with [hasattr]
    are optional; the others are read unconditionally. *)
Record ClimateDevice := {
  available : bool;
  name : string;
  current_temperature : float;
  target_temperature : float;
  min_temp : option float;
  max_temp : option float;
  hvac_mode : option string;
  hvac_action : option string;
  preset_mode : option string
}.

(** [IT600Gateway(host=..., euid=...)] *)
Record IT600Gateway := {
  host : string;
  euid : string
}.

(** The methods of [IT600Gateway] the integration calls.  [W] is whatever
    the library and the network behind it keep between calls; every method
    is a deterministic step on it, so that any scripted behaviour of a
    gateway is an instance.  The methods the integration wraps in [try] may
    raise; [close] returns. *)
Class GatewayLibrary (W : Type) := {
  connect : IT600Gateway -> W -> res unit * W;
  poll_status : IT600Gateway -> W -> res unit * W;
  get_climate_devices :
    IT600Gateway -> W -> res (PyDict.t string ClimateDevice) * W;
  close : IT600Gateway -> W -> W;
  set_climate_device_temperature :
    IT600Gateway -> string -> float -> W -> res unit * W;
  set_climate_device_mode :
    IT600Gateway -> string -> string -> W -> res unit * W;
  set_climate_device_preset :
    IT600Gateway -> string -> string -> W -> res unit * W
}.

End pyit600.

(** ** The host's climate vocabulary (homeassistant.components.climate) *)

Module homeassistant.

Inductive HVACMode := OFF | HEAT | COOL | HEAT_COOL | AUTO | DRY | FAN_ONLY.

(** [HVACMode] is a [StrEnum]: this is a member's value and its [str()]. *)
Definition HVACMode_value (m : HVACMode) : string :=
  match m with
  | OFF => "off" | HEAT => "heat" | COOL => "cool" | HEAT_COOL => "heat_cool"
  | AUTO => "auto" | DRY => "dry" | FAN_ONLY => "fan_only"
  end.

Definition HVACMode_eqb (a b : HVACMode) : bool :=
  match a, b with
  | OFF, OFF | HEAT, HEAT | COOL, COOL | HEAT_COOL, HEAT_COOL
  | AUTO, AUTO | DRY, DRY | FAN_ONLY, FAN_ONLY => true
  | _, _ => false
  end.

Module HVACAction.
Inductive t :=
  COOLING | DEFROSTING | DRYING | FAN | HEATING | IDLE | OFF | PREHEATING.
End HVACAction.

End homeassistant.

(** ** The data update coordinator (coordinator.py) *)

Module coordinator.

Import pyit600.

(** [coordinator.data]: the dict [_async_update_data] returns. *)
Definition Data := PyDict.t string (PyDict.t string ClimateDevice).

Inductive level := DEBUG | WARNING.

Inductive log_arg :=
| ArgStr (s : string)
| ArgInt (n : nat)
| ArgFloat (f : float).

(** What a run does to the outside, in order: records handed to
    [_LOGGER], calls of gateway methods, refresh requests to the host. *)
Inductive event :=
| Log (lvl : level) (fmt : string) (args : list log_arg)
| GwConnect
| GwPollStatus
| GwGetClimateDevices
| GwClose
| GwSetTemperature (device_id : string) (temperature : float)
| GwSetMode (device_id : string) (hvac_mode : string)
| GwSetPreset (device_id : string) (preset_mode : string)
| RequestRefresh.

Definition is_gateway_call (e : event) : bool :=
  match e with
  | Log _ _ _ | RequestRefresh => false
  | _ => true
  end.

Definition is_refresh_request (e : event) : bool :=
  match e with
  | RequestRefresh => true
  | _ => false
  end.

Section Coordinator.
Context {W : Type} {lib : GatewayLibrary W}.

(** A [SalusDataUpdateCoordinator] together with the environment its
    gateway lives in.  [data] and [last_update_success] are the host
    base class's attributes; [data] is [None] until a refresh has
    succeeded. *)
Record World := {
  _host : string;
  _euid : string;
  _gateway : option IT600Gateway;
  data : option Data;
  last_update_success : bool;
  env : W;
  events : list event
}.

Definition set_gateway (g : option IT600Gateway) (s : World) : World :=
  {| _host := _host s; _euid := _euid s; _gateway := g; data := data s;
     last_update_success := last_update_success s;
     env := env s; events := events s |}.

Definition set_env (w : W) (s : World) : World :=
  {| _host := _host s; _euid := _euid s; _gateway := _gateway s;
     data := data s; last_update_success := last_update_success s;
     env := w; events := events s |}.

Definition emit (e : event) (s : World) : World :=
  {| _host := _host s; _euid := _euid s; _gateway := _gateway s;
     data := data s; last_update_success := last_update_success s;
     env := env s; events := events s ++ [e] |}.

Definition publish (d : option Data) (ok : bool) (s : World) : World :=
  {| _host := _host s; _euid := _euid s; _gateway := _gateway s;
     data := d; last_update_success := ok;
     env := env s; events := events s |}.

(** [__init__] *)
Definition init (host euid : string) (w : W) : World :=
  {| _host := host; _euid := euid; _gateway := None; data := None;
     last_update_success := true; env := w; events := [] |}.

(** The gateway object [_async_setup] builds:
    [IT600Gateway(host=self._host, euid=self._euid)]. *)
Definition gateway_of (s : World) : IT600Gateway :=
  {| host := _host s; euid := _euid s |}.

(** The state a successful [_async_setup] leaves: both debug records, the
    call of [connect], the new gateway object and the environment after
    the call. *)
Definition connected (s : World) (w' : W) : World :=
  emit (Log DEBUG "Successfully connected to Salus gateway" [])
    (set_env w'
       (emit GwConnect
          (set_gateway (Some (gateway_of s))
             (emit (Log DEBUG "Connecting to Salus gateway at %s"
                      [ArgStr (_host s)]) s)))).

Definition log (lvl : level) (fmt : string) (args : list log_arg)
  : M World unit :=
  modify (emit (Log lvl fmt args)).

(** [await self._gateway.<method>(...)] where the method may raise: the
    call is recorded, then the library steps the environment. *)
Definition gateway_call {A} (ev : event) (method : W -> res A * W)
  : M World A :=
  fun s =>
    let s1 := emit ev s in
    let (r, w') := method (env s1) in (r, set_env w' s1).

(** The same for a method that returns. *)
Definition gateway_do (ev : event) (method : W -> W) : M World unit :=
  fun s =>
    let s1 := emit ev s in (Return tt, set_env (method (env s1)) s1).

(** The attribute access [self._gateway.<method>] itself. *)
Definition self_gateway (method : string) : M World IT600Gateway :=
  fun s =>
    match _gateway s with
    | Some gw => (Return gw, s)
    | None =>
        (Raise (AttributeError
                  ("'NoneType' object has no attribute '" ++ method ++ "'")), s)
    end.

(** The host's [async_request_refresh].  The model records that the
    request is made and stops there: the state and the trace it returns
    are those of the moment of the request.  What the host does with the
    request (it may run the refresh, poll the gateway and replace [data]
    before the call returns) is not part of them. *)
Definition async_request_refresh : M World unit :=
  modify (emit RequestRefresh).

Definition _async_setup : M World unit :=
  (h <- gets _host;;
   log DEBUG "Connecting to Salus gateway at %s" [ArgStr h];;
   modify (fun s => set_gateway (Some (gateway_of s)) s);;
   try_except
     (gw <- self_gateway "connect";;
      gateway_call GwConnect (connect gw);;
      log DEBUG "Successfully connected to Salus gateway" [])
     (fun err =>
        match err with
        | IT600AuthenticationError _ =>
            raise (ConfigEntryAuthFailed "Authentication failed - check EUID")
        | IT600ConnectionError _ =>
            raise (UpdateFailed ("Failed to connect to gateway: " ++ exn_str err))
        | _ => raise err
        end))%py.

(** The body runs under [async_timeout.timeout(30)]; an expiry surfaces
    inside the [try] as a [TimeoutError], which is one of the exceptions
    the gateway call can end with here. *)
Definition _async_update_data : M World Data :=
  (g <- gets _gateway;;
   match g with
   | None => _async_setup
   | Some _ => ret tt
   end;;
   try_except
     (gw <- self_gateway "poll_status";;
      gateway_call GwPollStatus (poll_status gw);;
      gw <- self_gateway "get_climate_devices";;
      climate_devices <- gateway_call GwGetClimateDevices (get_climate_devices gw);;
      log DEBUG "Polled %d climate devices"
          [ArgInt (PyDict.len climate_devices)];;
      ret (PyDict.literal String.eqb [("climate", climate_devices)]))
     (fun err =>
        match err with
        | IT600AuthenticationError _ =>
            raise (ConfigEntryAuthFailed "Authentication failed")
        | IT600ConnectionError _ =>
            raise (UpdateFailed ("Connection error: " ++ exn_str err))
        | _ =>
            raise (UpdateFailed
                     ("Error communicating with gateway: " ++ exn_str err))
        end))%py.

Definition async_close : M World unit :=
  (g <- gets _gateway;;
   match g with
   | Some gw =>
       gateway_do GwClose (close gw);;
       modify (set_gateway None);;
       log DEBUG "Closed connection to Salus gateway" []
   | None => ret tt
   end)%py.

Definition async_set_temperature (device_id : string) (temperature : float)
  : M World unit :=
  (g <- gets _gateway;;
   match g with
   | None => raise (UpdateFailed "Gateway not connected")
   | Some _ =>
       try_except
         (gw <- self_gateway "set_climate_device_temperature";;
          gateway_call (GwSetTemperature device_id temperature)
            (set_climate_device_temperature gw device_id temperature);;
          async_request_refresh)
         (fun err =>
            raise (UpdateFailed ("Failed to set temperature: " ++ exn_str err)))
   end)%py.

Definition async_set_hvac_mode (device_id hvac_mode : string)
  : M World unit :=
  (g <- gets _gateway;;
   match g with
   | None => raise (UpdateFailed "Gateway not connected")
   | Some _ =>
       try_except
         (gw <- self_gateway "set_climate_device_mode";;
          gateway_call (GwSetMode device_id hvac_mode)
            (set_climate_device_mode gw device_id hvac_mode);;
          async_request_refresh)
         (fun err =>
            raise (UpdateFailed ("Failed to set HVAC mode: " ++ exn_str err)))
   end)%py.

Definition async_set_preset_mode (device_id preset_mode : string)
  : M World unit :=
  (g <- gets _gateway;;
   match g with
   | None => raise (UpdateFailed "Gateway not connected")
   | Some _ =>
       try_except
         (gw <- self_gateway "set_climate_device_preset";;
          gateway_call (GwSetPreset device_id preset_mode)
            (set_climate_device_preset gw device_id preset_mode);;
          async_request_refresh)
         (fun err =>
            raise (UpdateFailed ("Failed to set preset mode: " ++ exn_str err)))
   end)%py.

(** The step of the host's [DataUpdateCoordinator] that every scheduled
    or requested refresh goes through:
    [self.data = await self._async_update_data()] under a [try] whose
    handlers record the failure and leave [data] alone. *)
Definition async_refresh (s : World) : World :=
  match _async_update_data s with
  | (Return d, s') => publish (Some d) true s'
  | (Raise _, s') => publish (data s') false s'
  end.

End Coordinator.

Arguments World : clear implicits.

End coordinator.

(** ** The climate platform (climate.py) *)

Module climate.

Import homeassistant pyit600 coordinator.

(** [{v: k for k, v in d.items()}]: the pairs are stored in iteration
    order, a later pair replacing an earlier one with the same new key. *)
Definition reverse_dict {K V} (eqbV : V -> V -> bool) (d : PyDict.t K V)
  : PyDict.t V K :=
  fold_left (fun acc kv => PyDict.set eqbV (snd kv) (fst kv) acc)
            (PyDict.items d) [].

Definition HVAC_MODE_MAP : PyDict.t string HVACMode :=
  PyDict.literal String.eqb [("heat", HEAT); ("off", OFF); ("auto", AUTO)].

Definition HVAC_MODE_REVERSE_MAP : PyDict.t HVACMode string :=
  reverse_dict HVACMode_eqb HVAC_MODE_MAP.

Definition HVAC_ACTION_MAP : PyDict.t string HVACAction.t :=
  PyDict.literal String.eqb
    [("heating", HVACAction.HEATING); ("idle", HVACAction.IDLE);
     ("off", HVACAction.OFF)].

Record SalusClimateEntity := {
  _device_id : string;
  _attr_unique_id : string
}.

(** [SalusClimateEntity(coordinator, device_id, entry_id)] *)
Definition new_entity (device_id entry_id : string) : SalusClimateEntity :=
  {| _device_id := device_id;
     _attr_unique_id := entry_id ++ "_" ++ device_id |}.

Section Entity.
Context {W : Type} {lib : GatewayLibrary W}.
Variable self : SalusClimateEntity.

Local Abbreviation Co := (M (World W)).

(** [self.coordinator.data.get("climate", {}).get(self._device_id)] *)
Definition _device_data : Co (option ClimateDevice) :=
  (d <- gets data;;
   match d with
   | None => raise (AttributeError "'NoneType' object has no attribute 'get'")
   | Some d =>
       ret (PyDict.get String.eqb (_device_id self)
              (PyDict.get_default String.eqb "climate" [] d))
   end)%py.

Definition available : Co bool :=
  (device <- _device_data;;
   ret match device with
       | Some dev => pyit600.available dev
       | None => false
       end)%py.

Definition name : Co string :=
  (device <- _device_data;;
   ret match device with
       | Some dev => pyit600.name dev
       | None => "Salus " ++ _device_id self
       end)%py.

Definition current_temperature : Co (option float) :=
  (device <- _device_data;;
   ret (option_map pyit600.current_temperature device))%py.

Definition target_temperature : Co (option float) :=
  (device <- _device_data;;
   ret (option_map pyit600.target_temperature device))%py.

Definition min_temp : Co float :=
  (device <- _device_data;;
   ret match device with
       | Some dev => match pyit600.min_temp dev with Some t => t | None => 5%float end
       | None => 5%float
       end)%py.

Definition max_temp : Co float :=
  (device <- _device_data;;
   ret match device with
       | Some dev => match pyit600.max_temp dev with Some t => t | None => 35%float end
       | None => 35%float
       end)%py.

Definition target_temperature_step : float := 0.5%float.

Definition hvac_mode : Co HVACMode :=
  (device <- _device_data;;
   ret match device with
       | Some dev =>
           match pyit600.hvac_mode dev with
           | Some raw => PyDict.get_default String.eqb raw HEAT HVAC_MODE_MAP
           | None => HEAT
           end
       | None => HEAT
       end)%py.

Definition hvac_modes : list HVACMode := [HEAT; OFF].

Definition hvac_action : Co (option HVACAction.t) :=
  (device <- _device_data;;
   ret match device with
       | Some dev =>
           match pyit600.hvac_action dev with
           | Some raw =>
               Some (PyDict.get_default String.eqb raw HVACAction.IDLE
                       HVAC_ACTION_MAP)
           | None => None
           end
       | None => None
       end)%py.

Definition preset_mode : Co (option string) :=
  (device <- _device_data;;
   ret match device with
       | Some dev => pyit600.preset_mode dev
       | None => None
       end)%py.

Definition preset_modes : list string :=
  ["Permanent Hold"; "Follow Schedule"; "Off"].

(** [kwargs.get(ATTR_TEMPERATURE)] is the argument. *)
Definition async_set_temperature (temperature : option float) : Co unit :=
  match temperature with
  | None => ret tt
  | Some t =>
      (log DEBUG "Setting temperature for %s to %s"
           [ArgStr (_device_id self); ArgFloat t];;
       coordinator.async_set_temperature (_device_id self) t)%py
  end.

Definition async_set_hvac_mode (hvac_mode : HVACMode) : Co unit :=
  match PyDict.get HVACMode_eqb hvac_mode HVAC_MODE_REVERSE_MAP with
  | None =>
      log WARNING "Unsupported HVAC mode: %s" [ArgStr (HVACMode_value hvac_mode)]
  | Some mode =>
      (log DEBUG "Setting HVAC mode for %s to %s"
           [ArgStr (_device_id self); ArgStr mode];;
       coordinator.async_set_hvac_mode (_device_id self) mode)%py
  end.

Definition async_set_preset_mode (preset_mode : string) : Co unit :=
  (log DEBUG "Setting preset mode for %s to %s"
       [ArgStr (_device_id self); ArgStr preset_mode];;
   coordinator.async_set_preset_mode (_device_id self) preset_mode)%py.

End Entity.

(** [async_setup_entry]: one entity per device of the first snapshot. *)
Definition async_setup_entry {W : Type} (entry_id : string)
  : M (World W) (list SalusClimateEntity) :=
  (d <- gets data;;
   match d with
   | None => raise (AttributeError "'NoneType' object has no attribute 'get'")
   | Some d =>
       let climate_devices := PyDict.get_default String.eqb "climate" [] d in
       let entities :=
         map (fun device_id => new_entity device_id entry_id)
             (PyDict.keys climate_devices) in
       log DEBUG "Adding %d climate entities" [ArgInt (List.length entities)];;
       ret entities
   end)%py.

End climate.

(** ** A scripted gateway

    An instance of the library interface whose answers are fixed in
    advance; the concrete runs below use it. *)

Module scripted.

Import pyit600.

Record Script := {
  on_connect : res unit;
  on_poll : res unit;
  on_get_devices : res (PyDict.t string ClimateDevice);
  on_command : res unit
}.

#[global] Instance library : GatewayLibrary Script := {|
  connect _ w := (on_connect w, w);
  poll_status _ w := (on_poll w, w);
  get_climate_devices _ w := (on_get_devices w, w);
  close _ w := w;
  set_climate_device_temperature _ _ _ w := (on_command w, w);
  set_climate_device_mode _ _ _ w := (on_command w, w);
  set_climate_device_preset _ _ _ w := (on_command w, w)
|}.

(** The thermostat of the specification's scenario. *)
Definition dev1 : ClimateDevice := {|
  available := true;
  name := "Living room";
  current_temperature := 21%float;
  target_temperature := 19.5%float;
  min_temp := Some 5%float;
  max_temp := Some 35%float;
  hvac_mode := Some "heat";
  hvac_action := Some "heating";
  preset_mode := Some "Follow Schedule"
|}.

(** A thermostat reporting a mode and an action outside the tables. *)
Definition dev2 : ClimateDevice := {|
  available := true;
  name := "Attic";
  current_temperature := 18%float;
  target_temperature := 16%float;
  min_temp := None;
  max_temp := None;
  hvac_mode := Some "cool";
  hvac_action := Some "cooling";
  preset_mode := None
|}.

Definition devices : PyDict.t string ClimateDevice :=
  PyDict.literal String.eqb [("dev1", dev1); ("dev2", dev2)].

(** A gateway that answers every call. *)
Definition healthy : Script := {|
  on_connect := Return tt;
  on_poll := Return tt;
  on_get_devices := Return devices;
  on_command := Return tt
|}.

(** A gateway that has become unreachable. *)
Definition unreachable : Script := {|
  on_connect := Raise (IT600ConnectionError "timed out");
  on_poll := Raise (IT600ConnectionError "timed out");
  on_get_devices := Return devices;
  on_command := Raise (IT600ConnectionError "timed out")
|}.

(** A gateway that rejects the EUID. *)
Definition wrong_euid : Script := {|
  on_connect := Raise (IT600AuthenticationError "bad euid");
  on_poll := Raise (IT600AuthenticationError "bad euid");
  on_get_devices := Return devices;
  on_command := Raise (IT600AuthenticationError "bad euid")
|}.

(** A gateway that accepts the connection and rejects the first poll. *)
Definition rejects_poll : Script := {|
  on_connect := Return tt;
  on_poll := Raise (IT600AuthenticationError "session expired");
  on_get_devices := Return devices;
  on_command := Return tt
|}.

Definition gw0 : IT600Gateway :=
  {| host := "10.0.0.5"; euid := "0011223344556677" |}.

(** A coordinator before its first refresh. *)
Definition fresh (w : Script) : coordinator.World Script :=
  coordinator.init "10.0.0.5" "0011223344556677" w.

(** A coordinator that has connected and published one snapshot. *)
Definition running (w : Script) : coordinator.World Script :=
  {| coordinator._host := "10.0.0.5";
     coordinator._euid := "0011223344556677";
     coordinator._gateway := Some gw0;
     coordinator.data :=
       Some (PyDict.literal String.eqb [("climate", devices)]);
     coordinator.last_update_success := true;
     coordinator.env := w;
     coordinator.events := [] |}.

End scripted.

(** ** The configuration flow (config_flow.py, [SalusConfigFlow]) *)

Module config_entry_flow.

Import pyit600.

(** What a step does to the outside, in order: calls on the gateway it
    builds, calls on the host's flow handler, records handed to
    [_LOGGER.exception]. *)
Inductive event :=
| Connect (gw : IT600Gateway)
| Close (gw : IT600Gateway)
| SetUniqueId (unique_id : string)
| AbortIfUniqueIdConfigured
| LogException (msg : string) (exc : exn).

Definition is_gateway_call (e : event) : bool :=
  match e with
  | Connect _ | Close _ => true
  | _ => false
  end.

(** The keys of a [vol.Schema] whose values are all [str]. *)
Inductive schema_key :=
| Required (key : string)
| Optional (key default : string).

(** The two results the step can return: [async_show_form] and
    [async_create_entry]. *)
Inductive FlowResult :=
| ShowForm (step_id : string) (data_schema : list schema_key)
           (errors : PyDict.t string string)
| CreateEntry (title : string) (data : PyDict.t string string).

(** The methods of the host's [ConfigFlow] base class the step calls
    inside its [try]; what they do is the host's business. *)
Class FlowHandler (H : Type) := {
  async_set_unique_id : string -> H -> res unit * H;
  _abort_if_unique_id_configured : H -> res unit * H
}.

Section Flow.
Context {W : Type} {lib : GatewayLibrary W}.
Context {H : Type} {handler : FlowHandler H}.

Record World := {
  env : W;
  flow : H;
  events : list event
}.

Definition emit (e : event) (s : World) : World :=
  {| env := env s; flow := flow s; events := events s ++ [e] |}.

Definition gateway_call {A} (ev : event) (method : W -> res A * W)
  : M World A :=
  fun s =>
    let (r, w') := method (env s) in
    (r, {| env := w'; flow := flow s; events := events s ++ [ev] |}).

Definition gateway_do (ev : event) (method : W -> W) : M World unit :=
  fun s =>
    (Return tt,
     {| env := method (env s); flow := flow s; events := events s ++ [ev] |}).

Definition handler_call {A} (ev : event) (method : H -> res A * H)
  : M World A :=
  fun s =>
    let (r, h') := method (flow s) in
    (r, {| env := env s; flow := h'; events := events s ++ [ev] |}).

(** The schema of the form. *)
Definition data_schema : list schema_key :=
  [Required const.CONF_HOST; Optional const.CONF_EUID const.DEFAULT_EUID].

Definition async_show_form (errors : PyDict.t string string) : FlowResult :=
  ShowForm "user" data_schema errors.

(** [errors[key] = value] on the empty [errors]. *)
Definition error (key value : string) : PyDict.t string string :=
  PyDict.set String.eqb key value [].

(** [async_step_user].  The [try] block either returns the entry from the
    function ([inl]) or leaves through a handler that fills [errors]
    ([inr]); in the second case the form is shown again. *)
Definition async_step_user (user_input : option (PyDict.t string string))
  : M World FlowResult :=
  match user_input with
  | None => ret (async_show_form [])
  | Some user_input =>
      match PyDict.get String.eqb const.CONF_HOST user_input with
      | None => raise (OtherException "KeyError" "'host'")
      | Some host =>
          let euid :=
            PyDict.get_default String.eqb const.CONF_EUID const.DEFAULT_EUID
              user_input in
          if negb (config_flow.validate_euid euid) then
            ret (async_show_form (error "euid" "invalid_euid"))
          else
            (outcome <-
               try_except
                 (let gateway := {| pyit600.host := host; pyit600.euid := euid |} in
                  gateway_call (Connect gateway) (connect gateway);;
                  gateway_do (Close gateway) (close gateway);;
                  handler_call (SetUniqueId host) (async_set_unique_id host);;
                  handler_call AbortIfUniqueIdConfigured
                    _abort_if_unique_id_configured;;
                  ret (inl (CreateEntry
                              ("Salus Gateway (" ++ host ++ ")")
                              (PyDict.literal String.eqb
                                 [(const.CONF_HOST, host);
                                  (const.CONF_EUID, euid)]))))
                 (fun err =>
                    match err with
                    | IT600AuthenticationError _ =>
                        ret (inr (error "base" "invalid_euid"))
                    | IT600ConnectionError _ =>
                        ret (inr (error "base" "cannot_connect"))
                    | _ =>
                        modify (emit (LogException
                                        "Unexpected exception during connection"
                                        err));;
                        ret (inr (error "base" "unknown"))
                    end);;
             match outcome with
             | inl result => ret result
             | inr errors => ret (async_show_form errors)
             end)%py
      end
  end.

End Flow.

Arguments World : clear implicits.

End config_entry_flow.

(** ** Set-up and unloading of a config entry (__init__.py) *)

Module integration.

Import pyit600.

Record ConfigEntry := {
  entry_id : string;
  entry_data : PyDict.t string string
}.

(** The attributes of a [SalusDataUpdateCoordinator] object, as kept in
    [hass.data]. *)
Record CoordinatorObject := {
  obj_host : string;
  obj_euid : string;
  obj_gateway : option IT600Gateway;
  obj_data : option coordinator.Data;
  obj_last_update_success : bool
}.

Inductive event :=
| OfCoordinator (e : coordinator.event)
| Debug (fmt : string) (args : list coordinator.log_arg)
| ForwardEntrySetups (entry_id : string) (platforms : list string)
| UnloadPlatforms (entry_id : string) (platforms : list string).

Definition is_close (e : event) : bool :=
  match e with
  | OfCoordinator coordinator.GwClose => true
  | _ => false
  end.

Definition is_forward (e : event) : bool :=
  match e with
  | ForwardEntrySetups _ _ => true
  | _ => false
  end.

(** The methods of [hass.config_entries] the module calls. *)
Class ConfigEntries (H : Type) := {
  async_forward_entry_setups : ConfigEntry -> list string -> H -> res unit * H;
  async_unload_platforms : ConfigEntry -> list string -> H -> res bool * H
}.

(** [d[k]] *)
Definition subscript {V} (k : string) (d : PyDict.t string V) {S}
  : M S V :=
  match PyDict.get String.eqb k d with
  | Some v => ret v
  | None => raise (OtherException "KeyError" ("'" ++ k ++ "'"))
  end.

(** [d.setdefault(k, dflt)] *)
Definition setdefault {V} (k : string) (dflt : V) (d : PyDict.t string V)
  : PyDict.t string V :=
  match PyDict.get String.eqb k d with
  | Some _ => d
  | None => PyDict.set String.eqb k dflt d
  end.

(** What [d.pop(k)] leaves of [d]. *)
Fixpoint remove {V} (k : string) (d : PyDict.t string V)
  : PyDict.t string V :=
  match d with
  | [] => []
  | (k', v) :: d' => if String.eqb k k' then d' else (k', v) :: remove k d'
  end.

Section Integration.
Context {W : Type} {lib : GatewayLibrary W}.
Context {H : Type} {host : ConfigEntries H}.

(** The host with its registry [hass.data], restricted to the keys that
    hold a dict of coordinators. *)
Record Hass := {
  hass_data : PyDict.t string (PyDict.t string CoordinatorObject);
  env : W;
  config_entries : H;
  events : list event
}.

Definition set_hass_data (d : PyDict.t string (PyDict.t string CoordinatorObject))
  (h : Hass) : Hass :=
  {| hass_data := d; env := env h; config_entries := config_entries h;
     events := events h |}.

Definition emit (e : event) (h : Hass) : Hass :=
  {| hass_data := hass_data h; env := env h;
     config_entries := config_entries h; events := events h ++ [e] |}.

Definition host_call {A} (ev : event) (method : H -> res A * H) : M Hass A :=
  fun h =>
    let (r, c') := method (config_entries h) in
    (r, {| hass_data := hass_data h; env := env h; config_entries := c';
           events := events h ++ [ev] |}).

(** [SalusDataUpdateCoordinator(hass, host, euid)] *)
Definition new_coordinator (host euid : string) : CoordinatorObject :=
  {| obj_host := host; obj_euid := euid; obj_gateway := None;
     obj_data := None; obj_last_update_success := true |}.

(** A coordinator object placed in the environment of the host. *)
Definition load (c : CoordinatorObject) (h : Hass) : coordinator.World W :=
  {| coordinator._host := obj_host c;
     coordinator._euid := obj_euid c;
     coordinator._gateway := obj_gateway c;
     coordinator.data := obj_data c;
     coordinator.last_update_success := obj_last_update_success c;
     coordinator.env := env h;
     coordinator.events := [] |}.

Definition store (s : coordinator.World W) : CoordinatorObject :=
  {| obj_host := coordinator._host s;
     obj_euid := coordinator._euid s;
     obj_gateway := coordinator._gateway s;
     obj_data := coordinator.data s;
     obj_last_update_success := coordinator.last_update_success s |}.

(** Run a method of the coordinator object [c]: the object it leaves is
    returned beside the result, the environment and the trace go on. *)
Definition on_coordinator {A} (c : CoordinatorObject)
  (method : M (coordinator.World W) A) : M Hass (A * CoordinatorObject) :=
  fun h =>
    let (r, s') := method (load c h) in
    let h' := {| hass_data := hass_data h;
                 env := coordinator.env s';
                 config_entries := config_entries h;
                 events := events h ++ map OfCoordinator (coordinator.events s') |} in
    match r with
    | Return a => (Return (a, store s'), h')
    | Raise e => (Raise e, h')
    end.

(** The host's [ConfigEntryNotReady()] raised with [cause] as its
    [__cause__]: having no message of its own, it prints the text of the
    cause. *)
Definition ConfigEntryNotReady (cause : exn) : exn :=
  OtherException "ConfigEntryNotReady" (exn_str cause).

(** The host's [async_config_entry_first_refresh]: one refresh in which
    an authentication failure is raised again as it is and any other
    failure is raised as [ConfigEntryNotReady]. *)
Definition async_config_entry_first_refresh : M (coordinator.World W) unit :=
  fun s =>
    match coordinator._async_update_data s with
    | (Return d, s') => (Return tt, coordinator.publish (Some d) true s')
    | (Raise e, s') =>
        (Raise match e with
               | ConfigEntryAuthFailed _ => e
               | _ => ConfigEntryNotReady e
               end,
         coordinator.publish (coordinator.data s') false s')
    end.

Definition async_setup_entry (entry : ConfigEntry) : M Hass bool :=
  (host <- subscript const.CONF_HOST (entry_data entry);;
   euid <- subscript const.CONF_EUID (entry_data entry);;
   modify (emit (Debug "Setting up Salus integration for gateway at %s"
                   [coordinator.ArgStr host]));;
   refreshed <- on_coordinator (new_coordinator host euid)
                  async_config_entry_first_refresh;;
   let coordinator := snd refreshed in
   modify (fun h => set_hass_data (setdefault const.DOMAIN [] (hass_data h)) h);;
   registry <- (fun h => subscript const.DOMAIN (hass_data h) h);;
   modify (fun h =>
             set_hass_data
               (PyDict.set String.eqb const.DOMAIN
                  (PyDict.set String.eqb (entry_id entry) coordinator registry)
                  (hass_data h)) h);;
   host_call (ForwardEntrySetups (entry_id entry) const.PLATFORMS)
     (async_forward_entry_setups entry const.PLATFORMS);;
   ret true)%py.

Definition async_unload_entry (entry : ConfigEntry) : M Hass bool :=
  (modify (emit (Debug "Unloading Salus integration" []));;
   unload_ok <- host_call (UnloadPlatforms (entry_id entry) const.PLATFORMS)
                  (async_unload_platforms entry const.PLATFORMS);;
   (if unload_ok : bool then
      registry <- (fun h => subscript const.DOMAIN (hass_data h) h);;
      coordinator <- subscript (entry_id entry) registry;;
      modify (fun h =>
                set_hass_data
                  (PyDict.set String.eqb const.DOMAIN
                     (remove (entry_id entry) registry) (hass_data h)) h);;
      on_coordinator coordinator coordinator.async_close;;
      ret tt
    else ret tt);;
   ret unload_ok)%py.

(** The start of climate.py's [async_setup_entry] as the host calls it:
    the coordinator is looked up in [hass.data], the entities are built
    from its snapshot. *)
Definition climate_async_setup_entry (entry : ConfigEntry)
  : M Hass (list climate.SalusClimateEntity) :=
  (registry <- (fun h => subscript const.DOMAIN (hass_data h) h);;
   coordinator <- subscript (entry_id entry) registry;;
   added <- on_coordinator coordinator
              (climate.async_setup_entry (entry_id entry));;
   ret (fst added))%py.

End Integration.

Arguments Hass : clear implicits.

End integration.

(** ** The device registry entry of an entity (climate.py, [device_info]) *)

Module climate_device.

Import pyit600 coordinator.

Record DeviceInfo := {
  identifiers : list (string * string);
  name : string;
  manufacturer : string;
  model : string
}.

Definition device_info {W : Type} (self : climate.SalusClimateEntity)
  : M (World W) DeviceInfo :=
  (device <- climate._device_data self;;
   let name :=
     match device with
     | Some dev => pyit600.name dev
     | None => "Salus " ++ climate._device_id self
     end in
   ret {| identifiers := [(const.DOMAIN, climate._device_id self)];
          name := name;
          manufacturer := "Salus";
          model := "IT600 Thermostat" |})%py.

End climate_device.

(** ** Views of the coordinator *)

Module coordinator_view.

Import pyit600 coordinator.

(** The [gateway] property. *)
Definition gateway {W : Type} : M (World W) (option IT600Gateway) :=
  gets _gateway.

(** The gateway call that opens a session. *)
Definition is_connect (e : event) : bool :=
  match e with
  | GwConnect => true
  | _ => false
  end.

(** The attributes of the coordinator object proper, without the
    environment and the trace. *)
Definition attributes {W : Type} (s : World W)
  : string * string * option IT600Gateway * option Data * bool :=
  (_host s, _euid s, _gateway s, data s, last_update_success s).

End coordinator_view.

(** ** A scripted host *)

Module scripted_host.

(** A flow handler that keeps the unique ids of the configured entries
    and refuses a second entry for one of them, as the host does. *)
Record Flows := {
  configured : list string;
  unique_id : option string
}.

#[global] Instance flow_handler : config_entry_flow.FlowHandler Flows := {|
  config_entry_flow.async_set_unique_id id h :=
    (Return tt, {| configured := configured h; unique_id := Some id |});
  config_entry_flow._abort_if_unique_id_configured h :=
    (match unique_id h with
     | Some id =>
         if existsb (String.eqb id) (configured h)
         then Raise (OtherException "AbortFlow" "already_configured")
         else Return tt
     | None => Return tt
     end, h)
|}.

Definition flow_world (w : scripted.Script) (known : list string)
  : config_entry_flow.World scripted.Script Flows :=
  {| config_entry_flow.env := w;
     config_entry_flow.flow := {| configured := known; unique_id := None |};
     config_entry_flow.events := [] |}.

(** A [hass.config_entries] whose platforms unload as scripted. *)
Record Platforms := {
  unloads : bool
}.

#[global] Instance config_entries : integration.ConfigEntries Platforms := {|
  integration.async_forward_entry_setups _ _ h := (Return tt, h);
  integration.async_unload_platforms _ _ h := (Return (unloads h), h)
|}.

Definition entry : integration.ConfigEntry :=
  {| integration.entry_id := "entry";
     integration.entry_data :=
       PyDict.literal String.eqb
         [("host", "10.0.0.5"); ("euid", "0011223344556677")] |}.

Definition hass (w : scripted.Script) (ok : bool)
  : integration.Hass scripted.Script Platforms :=
  {| integration.hass_data := [];
     integration.env := w;
     integration.config_entries := {| unloads := ok |};
     integration.events := [] |}.

(** A thermostat that follows its schedule. *)
Definition dev3 : pyit600.ClimateDevice :=
  {| pyit600.available := true;
     pyit600.name := "Hall";
     pyit600.current_temperature := 20%float;
     pyit600.target_temperature := 20%float;
     pyit600.min_temp := Some 5%float;
     pyit600.max_temp := Some 35%float;
     pyit600.hvac_mode := Some "auto";
     pyit600.hvac_action := Some "idle";
     pyit600.preset_mode := Some "Follow Schedule" |}.

(** A connected coordinator whose snapshot holds that thermostat. *)
Definition scheduled (w : scripted.Script) : coordinator.World scripted.Script :=
  coordinator.publish
    (Some (PyDict.literal String.eqb
             [("climate", PyDict.literal String.eqb [("dev3", dev3)])]))
    true (scripted.running w).

(** A gateway that connects and then fails every poll. *)
Definition drops_polls : scripted.Script :=
  {| scripted.on_connect := Return tt;
     scripted.on_poll := Raise (IT600ConnectionError "timed out");
     scripted.on_get_devices := Return scripted.devices;
     scripted.on_command := Return tt |}.

(** A gateway whose connection attempt times out under the caller. *)
Definition hangs : scripted.Script :=
  {| scripted.on_connect := Raise (OtherException "TimeoutError" "");
     scripted.on_poll := Raise (OtherException "TimeoutError" "");
     scripted.on_get_devices := Return scripted.devices;
     scripted.on_command := Raise (OtherException "TimeoutError" "") |}.

End scripted_host.

(** * Properties *)

(** ** The EUID validator *)

Section ValidateEuid.
Import config_flow.

Lemma match_class_split ranges n : forall s rest,
  match_class ranges n s = Some rest <->
  exists p, s = (p ++ rest)%string /\ String.length p = n /\
            forallb (in_class ranges) (list_ascii_of_string p) = true.
Proof.
  induction n as [|n IH]; intros s rest; cbn [match_class].
  - split.
    + intros [= ->]. exists EmptyString. auto.
    + intros (p & -> & Hlen & _). destruct p; [reflexivity | discriminate].
  - destruct s as [|c s].
    + split; [discriminate|].
      intros (p & Hs & Hlen & _). destruct p; discriminate.
    + destruct (in_class ranges c) eqn:Hc.
      * rewrite IH. split.
        -- intros (p & -> & Hlen & Hall). exists (String c p).
           cbn. rewrite Hc, Hall, Hlen. auto.
        -- intros (p & Hs & Hlen & Hall). destruct p as [|c' p]; [discriminate|].
           cbn in Hs, Hlen, Hall. injection Hs as <- ->. injection Hlen as Hlen.
           apply andb_prop in Hall as [_ Hall]. eauto.
      * split; [discriminate|].
        intros (p & Hs & Hlen & Hall). destruct p as [|c' p]; [discriminate|].
        cbn in Hs, Hall. injection Hs as <- ->.
        apply andb_prop in Hall as [Hc' _]. congruence.
Qed.

Lemma validate_euid_unfold s :
  validate_euid s =
  match match_class hex_class 16 s with
  | Some rest => at_eol rest
  | None => false
  end.
Proof.
  unfold validate_euid, re_match, EUID_REGEX. cbn [match_items Nat.eqb].
  destruct (match_class hex_class 16 s) as [rest|]; [|reflexivity].
  cbn [match_items]. destruct (at_eol rest); reflexivity.
Qed.

Lemma is_euid_format_spec s :
  is_euid_format s = true <->
  String.length s = 16 /\
  forallb (in_class hex_class) (list_ascii_of_string s) = true.
Proof.
  unfold is_euid_format, is_hex_digit.
  rewrite andb_true_iff, Nat.eqb_eq. reflexivity.
Qed.

Lemma at_eol_cases rest :
  at_eol rest = true <-> rest = EmptyString \/ rest = String newline EmptyString.
Proof.
  destruct rest as [|c [|c' rest]]; cbn.
  - intuition.
  - rewrite Ascii.eqb_eq. split.
    + intros ->. auto.
    + intros [H|H]; [discriminate | congruence].
  - split; [discriminate | intros [H|H]; discriminate].
Qed.

Lemma append_empty_r (s : string) : (s ++ "")%string = s.
Proof. induction s; cbn; congruence. Qed.

(** The validator accepts exactly the strings of sixteen hexadecimal
    digits and those strings followed by one newline. *)
Lemma validate_euid_characterisation s :
  validate_euid s = true <->
  is_euid_format s = true \/
  exists h, s = (h ++ String newline "")%string /\ is_euid_format h = true.
Proof.
  rewrite validate_euid_unfold. split.
  - destruct (match_class hex_class 16 s) as [rest|] eqn:Hm; [|discriminate].
    apply match_class_split in Hm as (p & -> & Hlen & Hall).
    rewrite at_eol_cases. intros [-> | ->].
    + left. rewrite append_empty_r. apply is_euid_format_spec. auto.
    + right. exists p. split; [reflexivity|]. apply is_euid_format_spec. auto.
  - intros [H | (h & -> & H)]; apply is_euid_format_spec in H as [Hlen Hall].
    + assert (Hm : match_class hex_class 16 s = Some EmptyString).
      { apply match_class_split. exists s. rewrite append_empty_r. auto. }
      rewrite Hm. reflexivity.
    + assert (Hm : match_class hex_class 16 (h ++ String newline "")
                   = Some (String newline "")).
      { apply match_class_split. exists h. auto. }
      rewrite Hm. reflexivity.
Qed.

(** Every well-formed EUID is accepted. *)
Lemma validate_euid_accepts s :
  is_euid_format s = true -> validate_euid s = true.
Proof. intros H. apply validate_euid_characterisation. auto. Qed.

Example validate_euid_default : validate_euid const.DEFAULT_EUID = true.
Proof. reflexivity. Qed.

Example validate_euid_short : validate_euid "0011223344" = false.
Proof. reflexivity. Qed.

Example validate_euid_leading_space :
  validate_euid " 0011223344556677" = false.
Proof. reflexivity. Qed.

Example validate_euid_non_hex : validate_euid "001122334455667g" = false.
Proof. reflexivity. Qed.

(** C2.  The validator is meant to accept exactly the strings of sixteen
    hexadecimal digits.  It also accepts sixteen digits followed by a
    newline, a string of length seventeen: [$] matches before a final
    newline. *)
Theorem validate_euid_trailing_newline :
  let s := ("0011223344556677" ++ String newline "")%string in
  String.length s = 17 /\
  is_euid_format s = false /\
  validate_euid s = true.
Proof. cbv zeta. repeat split; reflexivity. Qed.

End ValidateEuid.

(** ** The coordinator *)

Import pyit600 coordinator.

Ltac py_unfold :=
  cbv beta delta
    [bind ret raise try_except gets modify log gateway_call gateway_do
     self_gateway async_request_refresh].

Ltac py_run := py_unfold; cbn.

Section CoordinatorFacts.
Context {W : Type} {lib : GatewayLibrary W}.
Implicit Types (s : World W) (gw : IT600Gateway).

(** *** [_async_setup] *)

Lemma _async_setup_auth_error s msg w' :
  connect (gateway_of s) (env s) = (Raise (IT600AuthenticationError msg), w') ->
  fst (_async_setup s) =
    Raise (ConfigEntryAuthFailed "Authentication failed - check EUID") /\
  data (snd (_async_setup s)) = data s.
Proof.
  intros H. unfold _async_setup, gateway_of in *. py_run. rewrite H. cbn. auto.
Qed.

Lemma _async_setup_connection_error s msg w' :
  connect (gateway_of s) (env s) = (Raise (IT600ConnectionError msg), w') ->
  fst (_async_setup s) =
    Raise (UpdateFailed ("Failed to connect to gateway: " ++ msg)) /\
  data (snd (_async_setup s)) = data s.
Proof.
  intros H. unfold _async_setup, gateway_of in *. py_run. rewrite H. cbn. auto.
Qed.

Lemma _async_setup_ok s w' :
  connect (gateway_of s) (env s) = (Return tt, w') ->
  _async_setup s = (Return tt, connected s w').
Proof.
  intros H. unfold _async_setup, connected, gateway_of in *. py_run.
  rewrite H. reflexivity.
Qed.

Lemma _async_setup_data s : data (snd (_async_setup s)) = data s.
Proof.
  unfold _async_setup. py_run.
  destruct (connect _ (env s)) as [[[]|e] w']; [reflexivity|].
  destruct e; reflexivity.
Qed.

(** *** [_async_update_data] *)

(** With no gateway yet, the method first sets one up and then polls. *)
Lemma _async_update_data_bootstrap s w' :
  _gateway s = None ->
  connect (gateway_of s) (env s) = (Return tt, w') ->
  _async_update_data s = _async_update_data (connected s w').
Proof.
  intros Hg Hc. unfold _async_update_data at 1.
  unfold bind at 1. unfold gets at 1. rewrite Hg.
  unfold bind at 1. rewrite (_async_setup_ok _ _ Hc).
  unfold _async_update_data. reflexivity.
Qed.

Lemma _async_update_data_setup_fails s e s' :
  _gateway s = None ->
  _async_setup s = (Raise e, s') ->
  _async_update_data s = (Raise e, s').
Proof.
  intros Hg Hc. unfold _async_update_data.
  unfold bind at 1. unfold gets at 1. rewrite Hg.
  unfold bind at 1. rewrite Hc. reflexivity.
Qed.

(** How the [except] clauses translate what the [try] block raises. *)
Lemma _async_update_data_poll_raises s gw e w' :
  _gateway s = Some gw ->
  poll_status gw (env s) = (Raise e, w') ->
  _async_update_data s =
    (Raise match e with
           | IT600AuthenticationError _ =>
               ConfigEntryAuthFailed "Authentication failed"
           | IT600ConnectionError m => UpdateFailed ("Connection error: " ++ m)
           | _ => UpdateFailed
                    ("Error communicating with gateway: " ++ exn_str e)
           end,
     set_env w' (emit GwPollStatus s)).
Proof.
  intros Hg Hp. unfold _async_update_data. py_run.
  repeat (first [rewrite Hg | rewrite Hp]; cbn). destruct e; reflexivity.
Qed.

Lemma _async_update_data_get_raises s gw e w' w'' :
  _gateway s = Some gw ->
  poll_status gw (env s) = (Return tt, w') ->
  get_climate_devices gw w' = (Raise e, w'') ->
  _async_update_data s =
    (Raise match e with
           | IT600AuthenticationError _ =>
               ConfigEntryAuthFailed "Authentication failed"
           | IT600ConnectionError m => UpdateFailed ("Connection error: " ++ m)
           | _ => UpdateFailed
                    ("Error communicating with gateway: " ++ exn_str e)
           end,
     set_env w'' (emit GwGetClimateDevices (set_env w' (emit GwPollStatus s)))).
Proof.
  intros Hg Hp Hd. unfold _async_update_data. py_run.
  repeat (first [rewrite Hg | rewrite Hp | rewrite Hd]; cbn).
  destruct e; reflexivity.
Qed.

Lemma _async_update_data_ok s gw devs w' w'' :
  _gateway s = Some gw ->
  poll_status gw (env s) = (Return tt, w') ->
  get_climate_devices gw w' = (Return devs, w'') ->
  _async_update_data s =
    (Return [("climate", devs)],
     emit (Log DEBUG "Polled %d climate devices" [ArgInt (List.length devs)])
       (set_env w''
          (emit GwGetClimateDevices (set_env w' (emit GwPollStatus s))))).
Proof.
  intros Hg Hp Hd. unfold _async_update_data. py_run.
  repeat (first [rewrite Hg | rewrite Hp | rewrite Hd]; cbn). reflexivity.
Qed.

(** The method itself never assigns [data]. *)
Lemma _async_update_data_steady_data s gw :
  _gateway s = Some gw -> data (snd (_async_update_data s)) = data s.
Proof.
  intros Hg.
  destruct (poll_status gw (env s)) as [[[]|e] w'] eqn:Hp.
  - destruct (get_climate_devices gw w') as [[devs|e] w''] eqn:Hd.
    + rewrite (_async_update_data_ok _ _ _ _ _ Hg Hp Hd). reflexivity.
    + rewrite (_async_update_data_get_raises _ _ _ _ _ Hg Hp Hd). reflexivity.
  - rewrite (_async_update_data_poll_raises _ _ _ _ Hg Hp). reflexivity.
Qed.

Lemma _async_setup_raises s e w' :
  connect (gateway_of s) (env s) = (Raise e, w') ->
  exists e' s', _async_setup s = (Raise e', s').
Proof.
  intros H. unfold _async_setup, gateway_of in *. py_run. rewrite H.
  destruct e; cbn; eauto.
Qed.

Lemma _async_update_data_data s : data (snd (_async_update_data s)) = data s.
Proof.
  destruct (_gateway s) as [gw|] eqn:Hg.
  - eapply _async_update_data_steady_data; eauto.
  - destruct (connect (gateway_of s) (env s)) as [[[]|e] w'] eqn:Hc.
    + rewrite (_async_update_data_bootstrap _ _ Hg Hc).
      erewrite _async_update_data_steady_data; reflexivity.
    + destruct (_async_setup_raises _ _ _ Hc) as (e' & s' & Hs).
      rewrite (_async_update_data_setup_fails _ _ _ Hg Hs). cbn.
      change s' with (snd (Raise (A:=unit) e', s')). rewrite <- Hs.
      apply _async_setup_data.
Qed.

(** *** The host's refresh step *)

Lemma async_refresh_failure s e :
  fst (_async_update_data s) = Raise e ->
  data (async_refresh s) = data s /\ last_update_success (async_refresh s) = false.
Proof.
  intros H. unfold async_refresh.
  pose proof (_async_update_data_data s) as Hd.
  destruct (_async_update_data s) as [[d|e'] s']; [discriminate|].
  cbn in *. auto.
Qed.

Lemma async_refresh_success s d :
  fst (_async_update_data s) = Return d ->
  data (async_refresh s) = Some d /\ last_update_success (async_refresh s) = true.
Proof.
  intros H. unfold async_refresh.
  destruct (_async_update_data s) as [[d'|e'] s']; [|discriminate].
  cbn in *. injection H as ->. auto.
Qed.

(** What an entity reads depends on [data] alone. *)
Lemma _device_data_reads_data (ent : climate.SalusClimateEntity) s s' :
  data s = data s' ->
  fst (climate._device_data ent s) = fst (climate._device_data ent s').
Proof.
  intros H. unfold climate._device_data. py_run. rewrite H.
  destruct (data s'); reflexivity.
Qed.

(** *** Polls that fail *)

(** C1.  When [poll_status], or the retrieval of the devices after it,
    raises a connection error during a poll of a connected coordinator,
    [_async_update_data] raises [UpdateFailed] and returns no snapshot;
    the refresh leaves [coordinator.data] as it was, marks the update as
    failed, and every entity goes on reading the device it read before. *)
Theorem poll_connection_error_keeps_snapshot s gw msg w' :
  _gateway s = Some gw ->
  (poll_status gw (env s) = (Raise (IT600ConnectionError msg), w') \/
   exists w1, poll_status gw (env s) = (Return tt, w1) /\
              get_climate_devices gw w1 = (Raise (IT600ConnectionError msg), w')) ->
  fst (_async_update_data s) = Raise (UpdateFailed ("Connection error: " ++ msg)) /\
  data (snd (_async_update_data s)) = data s /\
  data (async_refresh s) = data s /\
  last_update_success (async_refresh s) = false /\
  forall ent, fst (climate._device_data ent (async_refresh s)) =
              fst (climate._device_data ent s).
Proof.
  intros Hg Hfail.
  assert (Hr : fst (_async_update_data s) =
               Raise (UpdateFailed ("Connection error: " ++ msg))).
  { destruct Hfail as [Hp | (w1 & Hp & Hd)].
    - rewrite (_async_update_data_poll_raises _ _ _ _ Hg Hp). reflexivity.
    - rewrite (_async_update_data_get_raises _ _ _ _ _ Hg Hp Hd). reflexivity. }
  destruct (async_refresh_failure _ _ Hr) as [Hdata Hok].
  repeat split; auto using _async_update_data_data.
  intros ent. apply _device_data_reads_data, Hdata.
Qed.

(** C3.  During the bootstrap (no gateway object yet, nothing published
    yet), an authentication error raised by [connect], by the first
    [poll_status] or by the retrieval after it ends [_async_setup] or
    [_async_update_data] with [ConfigEntryAuthFailed], which is not
    [UpdateFailed]; no value is returned and [coordinator.data] stays
    [None]. *)
Theorem bootstrap_auth_failure_publishes_nothing s :
  _gateway s = None ->
  data s = None ->
  (forall msg w',
      connect (gateway_of s) (env s) = (Raise (IT600AuthenticationError msg), w') ->
      fst (_async_setup s) =
        Raise (ConfigEntryAuthFailed "Authentication failed - check EUID") /\
      fst (_async_update_data s) =
        Raise (ConfigEntryAuthFailed "Authentication failed - check EUID") /\
      raises_class "UpdateFailed" (fst (_async_update_data s)) = false /\
      data (snd (_async_update_data s)) = None /\
      data (async_refresh s) = None) /\
  (forall msg w1 w',
      connect (gateway_of s) (env s) = (Return tt, w1) ->
      (poll_status (gateway_of s) w1 = (Raise (IT600AuthenticationError msg), w') \/
       exists w2, poll_status (gateway_of s) w1 = (Return tt, w2) /\
                  get_climate_devices (gateway_of s) w2 =
                    (Raise (IT600AuthenticationError msg), w')) ->
      fst (_async_update_data s) =
        Raise (ConfigEntryAuthFailed "Authentication failed") /\
      fst (_async_update_data (connected s w1)) =
        Raise (ConfigEntryAuthFailed "Authentication failed") /\
      raises_class "UpdateFailed" (fst (_async_update_data s)) = false /\
      data (snd (_async_update_data s)) = None /\
      data (async_refresh s) = None).
Proof.
  intros Hg Hnone.
  assert (Hdata : data (snd (_async_update_data s)) = None)
    by (rewrite _async_update_data_data; exact Hnone).
  split.
  - intros msg w' Hc.
    destruct (_async_setup_auth_error _ _ _ Hc) as [Hs _].
    assert (Hr : fst (_async_update_data s) =
                 Raise (ConfigEntryAuthFailed "Authentication failed - check EUID")).
    { destruct (_async_setup s) as [r s'] eqn:Hsetup. cbn in Hs. subst r.
      rewrite (_async_update_data_setup_fails _ _ _ Hg Hsetup). reflexivity. }
    destruct (async_refresh_failure _ _ Hr) as [Hd _].
    rewrite Hd, Hr. auto.
  - intros msg w1 w' Hc Hfail.
    assert (Hr' : fst (_async_update_data (connected s w1)) =
                  Raise (ConfigEntryAuthFailed "Authentication failed")).
    { destruct Hfail as [Hp | (w2 & Hp & Hd)].
      - rewrite (_async_update_data_poll_raises
                   (connected s w1) (gateway_of s) _ _ eq_refl Hp).
        reflexivity.
      - rewrite (_async_update_data_get_raises
                   (connected s w1) (gateway_of s) _ _ _ eq_refl Hp Hd).
        reflexivity. }
    assert (Hr : fst (_async_update_data s) =
                 Raise (ConfigEntryAuthFailed "Authentication failed"))
      by (rewrite (_async_update_data_bootstrap _ _ Hg Hc); exact Hr').
    destruct (async_refresh_failure _ _ Hr) as [Hd _].
    rewrite Hd, Hr. auto.
Qed.

End CoordinatorFacts.

Lemma poll_connection_error_keeps_snapshot_witness :
  let s := scripted.running scripted.unreachable in
  fst (_async_update_data s) = Raise (UpdateFailed "Connection error: timed out") /\
  data (async_refresh s) = data s /\
  fst (climate._device_data (climate.new_entity "dev1" "entry") (async_refresh s))
    = Return (Some scripted.dev1).
Proof.
  cbv zeta.
  destruct (poll_connection_error_keeps_snapshot
              (scripted.running scripted.unreachable) scripted.gw0 "timed out"
              scripted.unreachable eq_refl)
    as (Hr & _ & Hd & _ & Hread); [left; reflexivity|].
  split; [exact Hr|]. split; [exact Hd|].
  rewrite Hread. reflexivity.
Defined.

Lemma bootstrap_auth_failure_publishes_nothing_witness :
  fst (_async_update_data (scripted.fresh scripted.wrong_euid)) =
    Raise (ConfigEntryAuthFailed "Authentication failed - check EUID") /\
  data (async_refresh (scripted.fresh scripted.wrong_euid)) = None /\
  fst (_async_update_data (scripted.fresh scripted.rejects_poll)) =
    Raise (ConfigEntryAuthFailed "Authentication failed") /\
  data (async_refresh (scripted.fresh scripted.rejects_poll)) = None.
Proof.
  destruct (bootstrap_auth_failure_publishes_nothing
              (scripted.fresh scripted.wrong_euid) eq_refl eq_refl)
    as [Hconnect _].
  destruct (Hconnect "bad euid" scripted.wrong_euid eq_refl)
    as (_ & Hr1 & _ & _ & Hd1).
  destruct (bootstrap_auth_failure_publishes_nothing
              (scripted.fresh scripted.rejects_poll) eq_refl eq_refl)
    as [_ Hpoll].
  destruct (Hpoll "session expired" scripted.rejects_poll scripted.rejects_poll
              eq_refl)
    as (Hr2 & _ & _ & _ & Hd2); [left; reflexivity|].
  repeat split; assumption.
Defined.

(** *** Commands *)

Section CommandFacts.
Context {W : Type} {lib : GatewayLibrary W}.
Implicit Types (s : World W) (gw : IT600Gateway).

Ltac command_run Hg Hc :=
  py_run; repeat (first [rewrite Hg | rewrite Hc]; cbn); try reflexivity.

Lemma async_set_temperature_ok s gw id t w' :
  _gateway s = Some gw ->
  set_climate_device_temperature gw id t (env s) = (Return tt, w') ->
  async_set_temperature id t s =
    (Return tt, emit RequestRefresh (set_env w' (emit (GwSetTemperature id t) s))).
Proof. intros Hg Hc. unfold async_set_temperature. command_run Hg Hc. Qed.

Lemma async_set_temperature_raises s gw id t e w' :
  _gateway s = Some gw ->
  set_climate_device_temperature gw id t (env s) = (Raise e, w') ->
  async_set_temperature id t s =
    (Raise (UpdateFailed ("Failed to set temperature: " ++ exn_str e)),
     set_env w' (emit (GwSetTemperature id t) s)).
Proof. intros Hg Hc. unfold async_set_temperature. command_run Hg Hc. Qed.

Lemma async_set_hvac_mode_ok s gw id m w' :
  _gateway s = Some gw ->
  set_climate_device_mode gw id m (env s) = (Return tt, w') ->
  async_set_hvac_mode id m s =
    (Return tt, emit RequestRefresh (set_env w' (emit (GwSetMode id m) s))).
Proof. intros Hg Hc. unfold async_set_hvac_mode. command_run Hg Hc. Qed.

Lemma async_set_hvac_mode_raises s gw id m e w' :
  _gateway s = Some gw ->
  set_climate_device_mode gw id m (env s) = (Raise e, w') ->
  async_set_hvac_mode id m s =
    (Raise (UpdateFailed ("Failed to set HVAC mode: " ++ exn_str e)),
     set_env w' (emit (GwSetMode id m) s)).
Proof. intros Hg Hc. unfold async_set_hvac_mode. command_run Hg Hc. Qed.

Lemma async_set_preset_mode_ok s gw id p w' :
  _gateway s = Some gw ->
  set_climate_device_preset gw id p (env s) = (Return tt, w') ->
  async_set_preset_mode id p s =
    (Return tt, emit RequestRefresh (set_env w' (emit (GwSetPreset id p) s))).
Proof. intros Hg Hc. unfold async_set_preset_mode. command_run Hg Hc. Qed.

Lemma async_set_preset_mode_raises s gw id p e w' :
  _gateway s = Some gw ->
  set_climate_device_preset gw id p (env s) = (Raise e, w') ->
  async_set_preset_mode id p s =
    (Raise (UpdateFailed ("Failed to set preset mode: " ++ exn_str e)),
     set_env w' (emit (GwSetPreset id p) s)).
Proof. intros Hg Hc. unfold async_set_preset_mode. command_run Hg Hc. Qed.

(** C8.  On a connected coordinator, each of the three commands calls the
    gateway once; when that call returns, a refresh is requested right
    after it and the command returns; when it raises, the command fails
    with [UpdateFailed] and no refresh is requested.  The regular polls
    are thirty seconds apart. *)
Theorem command_success_requests_refresh s gw :
  _gateway s = Some gw ->
  const.DEFAULT_SCAN_INTERVAL = 30 /\
  (forall id t w',
      set_climate_device_temperature gw id t (env s) = (Return tt, w') ->
      fst (async_set_temperature id t s) = Return tt /\
      events (snd (async_set_temperature id t s)) =
        (events s ++ [GwSetTemperature id t; RequestRefresh])%list) /\
  (forall id m w',
      set_climate_device_mode gw id m (env s) = (Return tt, w') ->
      fst (async_set_hvac_mode id m s) = Return tt /\
      events (snd (async_set_hvac_mode id m s)) =
        (events s ++ [GwSetMode id m; RequestRefresh])%list) /\
  (forall id p w',
      set_climate_device_preset gw id p (env s) = (Return tt, w') ->
      fst (async_set_preset_mode id p s) = Return tt /\
      events (snd (async_set_preset_mode id p s)) =
        (events s ++ [GwSetPreset id p; RequestRefresh])%list) /\
  (forall id t e w',
      set_climate_device_temperature gw id t (env s) = (Raise e, w') ->
      raises_class "UpdateFailed" (fst (async_set_temperature id t s)) = true /\
      events (snd (async_set_temperature id t s)) =
        (events s ++ [GwSetTemperature id t])%list) /\
  (forall id m e w',
      set_climate_device_mode gw id m (env s) = (Raise e, w') ->
      raises_class "UpdateFailed" (fst (async_set_hvac_mode id m s)) = true /\
      events (snd (async_set_hvac_mode id m s)) =
        (events s ++ [GwSetMode id m])%list) /\
  (forall id p e w',
      set_climate_device_preset gw id p (env s) = (Raise e, w') ->
      raises_class "UpdateFailed" (fst (async_set_preset_mode id p s)) = true /\
      events (snd (async_set_preset_mode id p s)) =
        (events s ++ [GwSetPreset id p])%list).
Proof.
  intros Hg. split; [reflexivity|].
  repeat split; intros.
  all: first
    [ erewrite async_set_temperature_ok by eassumption
    | erewrite async_set_hvac_mode_ok by eassumption
    | erewrite async_set_preset_mode_ok by eassumption
    | erewrite async_set_temperature_raises by eassumption
    | erewrite async_set_hvac_mode_raises by eassumption
    | erewrite async_set_preset_mode_raises by eassumption ].
  all: cbn; rewrite <- ?app_assoc; reflexivity.
Qed.

(** C5, as the code has it.  [async_set_temperature] does not look the
    device up: on a connected coordinator it hands every device id to the
    gateway.  When the gateway call returns, a refresh is requested and
    the command returns; when it raises, whatever the exception, the
    command fails with [UpdateFailed].  The outcome does not depend on the
    published snapshot. *)
Theorem set_temperature_forwards_any_device s gw id t :
  _gateway s = Some gw ->
  let r := fst (set_climate_device_temperature gw id t (env s)) in
  let out := async_set_temperature id t s in
  fst out =
    match r with
    | Return _ => Return tt
    | Raise e => Raise (UpdateFailed ("Failed to set temperature: " ++ exn_str e))
    end /\
  events (snd out) =
    (events s ++ GwSetTemperature id t ::
       match r with Return _ => [RequestRefresh] | Raise _ => [] end)%list /\
  raises_class "DeviceNotFoundError" (fst out) = false /\
  forall d ok,
    async_set_temperature id t (publish d ok s) = (fst out, publish d ok (snd out)).
Proof.
  intros Hg. cbv zeta.
  destruct (set_climate_device_temperature gw id t (env s)) as [[[]|e] w'] eqn:Hc.
  - rewrite (async_set_temperature_ok _ _ _ _ _ Hg Hc).
    split; [reflexivity|]. split; [cbn; rewrite <- app_assoc; reflexivity|].
    split; [reflexivity|]. intros d ok.
    rewrite (async_set_temperature_ok (publish d ok s) gw id t w' Hg Hc).
    reflexivity.
  - rewrite (async_set_temperature_raises _ _ _ _ _ _ Hg Hc).
    split; [reflexivity|]. split; [reflexivity|].
    split; [reflexivity|]. intros d ok.
    rewrite (async_set_temperature_raises (publish d ok s) gw id t e w' Hg Hc).
    reflexivity.
Qed.

(** *** Without a gateway *)

(** C10, as the code has it.  With no gateway object, each command
    raises [UpdateFailed("Gateway not connected")] and leaves everything
    as it was: no gateway call, no refresh request, no log record.  That
    is the situation of a coordinator that has just been built and of one
    that has been closed.  It is not the situation of every coordinator
    without a session: see
    [command_after_failed_connect_reaches_gateway]. *)
Theorem command_without_gateway_fails s :
  _gateway s = None ->
  (forall id t,
      async_set_temperature id t s =
        (Raise (UpdateFailed "Gateway not connected"), s)) /\
  (forall id m,
      async_set_hvac_mode id m s =
        (Raise (UpdateFailed "Gateway not connected"), s)) /\
  (forall id p,
      async_set_preset_mode id p s =
        (Raise (UpdateFailed "Gateway not connected"), s)) /\
  (forall h e (w : W), _gateway (init h e w) = None) /\
  (forall s0, _gateway (snd (async_close s0)) = None).
Proof.
  intros Hg. repeat split; intros.
  - unfold async_set_temperature. py_run. rewrite Hg. reflexivity.
  - unfold async_set_hvac_mode. py_run. rewrite Hg. reflexivity.
  - unfold async_set_preset_mode. py_run. rewrite Hg. reflexivity.
  - unfold async_close. py_run. destruct (_gateway s0) eqn:H0; cbn; auto.
Qed.

(** *** [async_close] *)

Lemma async_close_closed s :
  _gateway s = None -> async_close s = (Return tt, s).
Proof. intros Hg. unfold async_close. py_run. rewrite Hg. reflexivity. Qed.

Lemma async_close_open s gw :
  _gateway s = Some gw ->
  async_close s =
    (Return tt,
     emit (Log DEBUG "Closed connection to Salus gateway" [])
       (set_gateway None (set_env (close gw (env s)) (emit GwClose s)))).
Proof. intros Hg. unfold async_close. py_run. rewrite Hg. reflexivity. Qed.

Lemma async_close_returns s :
  fst (async_close s) = Return tt /\ _gateway (snd (async_close s)) = None.
Proof.
  destruct (_gateway s) as [gw|] eqn:Hg.
  - rewrite (async_close_open _ _ Hg). auto.
  - rewrite (async_close_closed _ Hg). auto.
Qed.

(** C9.  [async_close] returns and leaves no gateway object; called
    without one it does nothing at all; hence a second call changes
    nothing and two calls in a row amount to one. *)
Theorem async_close_idempotent s :
  fst (async_close s) = Return tt /\
  _gateway (snd (async_close s)) = None /\
  (_gateway s = None -> async_close s = (Return tt, s)) /\
  async_close (snd (async_close s)) = (Return tt, snd (async_close s)) /\
  (async_close;; async_close)%py s = async_close s.
Proof.
  destruct (async_close_returns s) as [Hr Hg].
  pose proof (async_close_closed _ Hg) as Hagain.
  repeat split; auto using async_close_closed.
  unfold bind. destruct (async_close s) as [r s'] eqn:Hc.
  cbn in Hr, Hagain. subst r. exact Hagain.
Qed.

End CommandFacts.

Lemma command_success_requests_refresh_witness :
  let s := scripted.running scripted.healthy in
  let bad := scripted.running scripted.unreachable in
  events (snd (async_set_temperature "dev1" 21.5 s)) =
    [GwSetTemperature "dev1" 21.5; RequestRefresh] /\
  events (snd (async_set_hvac_mode "dev1" "off" s)) =
    [GwSetMode "dev1" "off"; RequestRefresh] /\
  events (snd (async_set_preset_mode "dev1" "Off" s)) =
    [GwSetPreset "dev1" "Off"; RequestRefresh] /\
  events (snd (async_set_temperature "dev1" 21.5 bad)) =
    [GwSetTemperature "dev1" 21.5].
Proof.
  cbv zeta.
  destruct (command_success_requests_refresh
              (scripted.running scripted.healthy) scripted.gw0 eq_refl)
    as (_ & Ht & Hm & Hp & _).
  destruct (command_success_requests_refresh
              (scripted.running scripted.unreachable) scripted.gw0 eq_refl)
    as (_ & _ & _ & _ & Hf & _).
  destruct (Ht "dev1" 21.5%float scripted.healthy eq_refl) as [_ H1].
  destruct (Hm "dev1" "off" scripted.healthy eq_refl) as [_ H2].
  destruct (Hp "dev1" "Off" scripted.healthy eq_refl) as [_ H3].
  destruct (Hf "dev1" 21.5%float (IT600ConnectionError "timed out")
              scripted.unreachable eq_refl) as [_ H4].
  repeat split; assumption.
Defined.

(** The claim that an unknown device id is refused before the gateway is
    called fails on a healthy gateway: ["ghost"] is in no snapshot, the
    gateway is called with it, a refresh is requested and the command
    returns. *)
Lemma set_temperature_unknown_device_reaches_gateway :
  let s := scripted.running scripted.healthy in
  let out := async_set_temperature "ghost" 21 s in
  fst (climate._device_data (climate.new_entity "ghost" "entry") s) = Return None /\
  fst out = Return tt /\
  raises_class "DeviceNotFoundError" (fst out) = false /\
  events (snd out) = [GwSetTemperature "ghost" 21; RequestRefresh] /\
  filter is_gateway_call (events (snd out)) <> filter is_gateway_call (events s).
Proof. cbv zeta. repeat split; try reflexivity. discriminate. Qed.

Lemma set_temperature_forwards_any_device_witness :
  let s := scripted.running scripted.unreachable in
  fst (async_set_temperature "ghost" 21 s) =
    Raise (UpdateFailed "Failed to set temperature: timed out") /\
  events (snd (async_set_temperature "ghost" 21 s)) = [GwSetTemperature "ghost" 21].
Proof.
  cbv zeta.
  destruct (set_temperature_forwards_any_device
              (scripted.running scripted.unreachable) scripted.gw0
              "ghost" 21%float eq_refl)
    as (Hr & He & _).
  split; [exact Hr | exact He].
Defined.

Lemma command_without_gateway_fails_witness :
  let before := scripted.fresh scripted.healthy in
  let after := snd (async_close (scripted.running scripted.healthy)) in
  async_set_temperature "dev1" 21 before =
    (Raise (UpdateFailed "Gateway not connected"), before) /\
  async_set_hvac_mode "dev1" "heat" after =
    (Raise (UpdateFailed "Gateway not connected"), after) /\
  async_set_preset_mode "dev1" "Off" after =
    (Raise (UpdateFailed "Gateway not connected"), after).
Proof.
  cbv zeta.
  destruct (command_without_gateway_fails
              (scripted.fresh scripted.healthy) eq_refl) as (Ht & _).
  destruct (command_without_gateway_fails
              (snd (async_close (scripted.running scripted.healthy))) eq_refl)
    as (_ & Hm & Hp & _).
  split; [apply Ht|]. split; [apply Hm | apply Hp].
Defined.

(** The claim that a command on a coordinator without a session raises
    ["Gateway not connected"] and calls nothing fails after a first
    refresh whose [connect] failed: no session was opened, yet the
    gateway object is still assigned, so the command calls the gateway
    and fails with the gateway's error. *)
Lemma command_after_failed_connect_reaches_gateway :
  let first := _async_update_data (scripted.fresh scripted.unreachable) in
  let s := snd first in
  let out := async_set_temperature "dev1" 21 s in
  fst first = Raise (UpdateFailed "Failed to connect to gateway: timed out") /\
  _gateway s = Some scripted.gw0 /\
  fst out <> Raise (UpdateFailed "Gateway not connected") /\
  fst out = Raise (UpdateFailed "Failed to set temperature: timed out") /\
  filter is_gateway_call (events (snd out)) =
    (filter is_gateway_call (events s) ++ [GwSetTemperature "dev1" 21])%list /\
  snd out <> s.
Proof.
  cbv zeta. split; [reflexivity|]. split; [reflexivity|].
  split; [discriminate|]. split; [reflexivity|]. split; [reflexivity|].
  intros H. apply (f_equal events) in H. discriminate H.
Qed.

Lemma async_close_idempotent_witness :
  let s := scripted.fresh scripted.healthy in
  _gateway s = None /\ async_close s = (Return tt, s).
Proof.
  cbv zeta. split; [reflexivity|].
  destruct (async_close_idempotent (scripted.fresh scripted.healthy))
    as (_ & _ & Hnoop & _).
  exact (Hnoop eq_refl).
Defined.

(** ** The climate platform *)

Import homeassistant.

Section ClimateFacts.
Context {W : Type} {lib : GatewayLibrary W}.
Implicit Types (s : World W) (ent : climate.SalusClimateEntity).

Lemma reverse_map_unmapped (m : HVACMode) :
  ~ In m [HEAT; OFF; AUTO] <->
  PyDict.get HVACMode_eqb m climate.HVAC_MODE_REVERSE_MAP = None.
Proof.
  destruct m; cbn; split; intros H; try reflexivity; try discriminate;
    try (exfalso; apply H; tauto); intuition discriminate.
Qed.

(** C4, as the code has it.  For a mode outside HEAT, OFF and AUTO the
    entity's [async_set_hvac_mode] logs a warning and returns: no
    exception, no call of the gateway, no refresh request, and nothing
    else changes. *)
Theorem set_hvac_mode_unmapped_is_ignored ent (m : HVACMode) s :
  ~ In m [HEAT; OFF; AUTO] ->
  let out := climate.async_set_hvac_mode ent m s in
  out = (Return tt,
         emit (Log WARNING "Unsupported HVAC mode: %s" [ArgStr (HVACMode_value m)]) s) /\
  filter is_gateway_call (events (snd out)) = filter is_gateway_call (events s) /\
  filter is_refresh_request (events (snd out)) =
    filter is_refresh_request (events s) /\
  env (snd out) = env s /\
  data (snd out) = data s.
Proof.
  intros Hm. apply reverse_map_unmapped in Hm. cbv zeta.
  unfold climate.async_set_hvac_mode. rewrite Hm. py_run.
  rewrite !filter_app. cbn. rewrite !app_nil_r. auto.
Qed.

(** A mapped mode is translated and handed to the coordinator. *)
Lemma set_hvac_mode_mapped ent (m : HVACMode) s :
  In m [HEAT; OFF; AUTO] ->
  exists raw,
    PyDict.get String.eqb raw climate.HVAC_MODE_MAP = Some m /\
    climate.async_set_hvac_mode ent m s =
      coordinator.async_set_hvac_mode (climate._device_id ent) raw
        (emit (Log DEBUG "Setting HVAC mode for %s to %s"
                 [ArgStr (climate._device_id ent); ArgStr raw]) s).
Proof.
  intros [<- | [<- | [<- | []]]];
    [exists "heat" | exists "off" | exists "auto"]; split; reflexivity.
Qed.

(** C6.  The tables send ["heat"], ["off"], ["auto"] to HEAT, OFF, AUTO
    and ["heating"] to HEATING, and the reverse table undoes the mode
    table: each is the inverse of the other. *)
Theorem hvac_mode_tables_round_trip :
  PyDict.get String.eqb "heat" climate.HVAC_MODE_MAP = Some HEAT /\
  PyDict.get String.eqb "off" climate.HVAC_MODE_MAP = Some OFF /\
  PyDict.get String.eqb "auto" climate.HVAC_MODE_MAP = Some AUTO /\
  PyDict.get String.eqb "heating" climate.HVAC_ACTION_MAP = Some HVACAction.HEATING /\
  (forall raw, In raw ["heat"; "off"; "auto"] ->
     exists m, PyDict.get String.eqb raw climate.HVAC_MODE_MAP = Some m /\
               PyDict.get HVACMode_eqb m climate.HVAC_MODE_REVERSE_MAP = Some raw) /\
  (forall raw m,
     PyDict.get String.eqb raw climate.HVAC_MODE_MAP = Some m ->
     PyDict.get HVACMode_eqb m climate.HVAC_MODE_REVERSE_MAP = Some raw) /\
  (forall m raw,
     PyDict.get HVACMode_eqb m climate.HVAC_MODE_REVERSE_MAP = Some raw ->
     PyDict.get String.eqb raw climate.HVAC_MODE_MAP = Some m).
Proof.
  repeat split.
  - intros raw [<- | [<- | [<- | []]]]; eexists; split; reflexivity.
  - intros raw m. cbn.
    destruct (String.eqb_spec raw "heat") as [-> | _]; [intros [= <-]; reflexivity|].
    destruct (String.eqb_spec raw "off") as [-> | _]; [intros [= <-]; reflexivity|].
    destruct (String.eqb_spec raw "auto") as [-> | _]; [intros [= <-]; reflexivity|].
    discriminate.
  - intros m raw. destruct m; cbn; intros [= <-]; reflexivity.
Qed.

(** C7.  For a device of the snapshot whose raw mode has no entry in the
    mode table the [hvac_mode] property returns HEAT, and for one whose
    raw action has no entry in the action table [hvac_action] returns
    IDLE; neither raises, logs or changes anything. *)
Theorem unmapped_raw_values_fall_back ent s d dev :
  data s = Some d ->
  PyDict.get String.eqb (climate._device_id ent)
    (PyDict.get_default String.eqb "climate" [] d) = Some dev ->
  (forall raw,
      hvac_mode dev = Some raw ->
      PyDict.get String.eqb raw climate.HVAC_MODE_MAP = None ->
      climate.hvac_mode ent s = (Return HEAT, s)) /\
  (forall raw,
      hvac_action dev = Some raw ->
      PyDict.get String.eqb raw climate.HVAC_ACTION_MAP = None ->
      climate.hvac_action ent s = (Return (Some HVACAction.IDLE), s)).
Proof.
  intros Hd Hdev. split; intros raw Hraw Hget.
  - unfold climate.hvac_mode, climate._device_data. py_unfold.
    rewrite Hd, Hdev, Hraw. unfold PyDict.get_default. rewrite Hget. reflexivity.
  - unfold climate.hvac_action, climate._device_data. py_unfold.
    rewrite Hd, Hdev, Hraw. unfold PyDict.get_default. rewrite Hget. reflexivity.
Qed.

End ClimateFacts.

(** The claim that an unmapped mode makes the command fail with
    [UnsupportedValueError] fails at COOL: the command returns. *)
Lemma set_hvac_mode_cool_returns :
  let s := scripted.running scripted.healthy in
  let out := climate.async_set_hvac_mode (climate.new_entity "dev1" "entry") COOL s in
  ~ In COOL [HEAT; OFF; AUTO] /\
  fst out = Return tt /\
  raises_class "UnsupportedValueError" (fst out) = false.
Proof.
  cbv zeta. split; [|split; reflexivity].
  intros [H | [H | [H | []]]]; discriminate.
Qed.

Lemma set_hvac_mode_unmapped_is_ignored_witness :
  let s := scripted.running scripted.healthy in
  climate.async_set_hvac_mode (climate.new_entity "dev1" "entry") FAN_ONLY s =
    (Return tt, emit (Log WARNING "Unsupported HVAC mode: %s" [ArgStr "fan_only"]) s).
Proof.
  cbv zeta.
  refine (proj1 (set_hvac_mode_unmapped_is_ignored
                   (climate.new_entity "dev1" "entry") FAN_ONLY
                   (scripted.running scripted.healthy) _)).
  intros [H | [H | [H | []]]]; discriminate.
Defined.

Lemma hvac_mode_tables_round_trip_witness :
  PyDict.get String.eqb "auto" climate.HVAC_MODE_MAP = Some AUTO /\
  PyDict.get HVACMode_eqb AUTO climate.HVAC_MODE_REVERSE_MAP = Some "auto".
Proof.
  destruct hvac_mode_tables_round_trip as (_ & _ & Hauto & _ & _ & Hback & _).
  split; [exact Hauto | exact (Hback "auto" AUTO Hauto)].
Defined.

Lemma unmapped_raw_values_fall_back_witness :
  let s := scripted.running scripted.healthy in
  let ent := climate.new_entity "dev2" "entry" in
  climate.hvac_mode ent s = (Return HEAT, s) /\
  climate.hvac_action ent s = (Return (Some HVACAction.IDLE), s).
Proof.
  cbv zeta.
  destruct (unmapped_raw_values_fall_back
              (climate.new_entity "dev2" "entry")
              (scripted.running scripted.healthy)
              [("climate", scripted.devices)] scripted.dev2 eq_refl eq_refl)
    as [Hmode Haction].
  split; [exact (Hmode "cool" eq_refl eq_refl) | exact (Haction "cooling" eq_refl eq_refl)].
Defined.

(** * Further properties *)

(** ** Polling *)

Section PollingFacts.
Context {W : Type} {lib : GatewayLibrary W}.
Implicit Types (s : World W) (gw : IT600Gateway).

(** X1.  A poll that succeeds returns the dict with the one key
    ["climate"] holding what the gateway gave; the refresh publishes it
    whole, so that each entity reads the device the gateway gave for its
    id, or none; the gateway is asked for the status and then for the
    devices, and one debug record counts them. *)
Theorem successful_poll_publishes_devices s gw devs w1 w2 :
  _gateway s = Some gw ->
  poll_status gw (env s) = (Return tt, w1) ->
  get_climate_devices gw w1 = (Return devs, w2) ->
  fst (_async_update_data s) = Return [("climate", devs)] /\
  data (async_refresh s) = Some [("climate", devs)] /\
  last_update_success (async_refresh s) = true /\
  (forall ent,
      climate._device_data ent (async_refresh s) =
        (Return (PyDict.get String.eqb (climate._device_id ent) devs),
         async_refresh s)) /\
  events (async_refresh s) =
    (events s ++
     [GwPollStatus; GwGetClimateDevices;
      Log DEBUG "Polled %d climate devices" [ArgInt (List.length devs)]])%list.
Proof.
  intros Hg Hp Hd.
  pose proof (_async_update_data_ok _ _ _ _ _ Hg Hp Hd) as Hrun.
  unfold async_refresh. rewrite Hrun. cbn.
  repeat split. rewrite <- !app_assoc. reflexivity.
Qed.

(** What a poll of a connected coordinator adds to the trace. *)
Lemma steady_poll_events s gw :
  _gateway s = Some gw ->
  exists tail,
    events (snd (_async_update_data s)) = (events s ++ GwPollStatus :: tail)%list /\
    (tail = [] \/ tail = [GwGetClimateDevices] \/
     exists n, tail = [GwGetClimateDevices;
                       Log DEBUG "Polled %d climate devices" [ArgInt n]]).
Proof.
  intros Hg.
  destruct (poll_status gw (env s)) as [[[]|e] w'] eqn:Hp.
  - destruct (get_climate_devices gw w') as [[devs|e] w''] eqn:Hd.
    + rewrite (_async_update_data_ok _ _ _ _ _ Hg Hp Hd). cbn.
      rewrite <- !app_assoc. eexists. split; [reflexivity|].
      right; right. eexists. reflexivity.
    + rewrite (_async_update_data_get_raises _ _ _ _ _ Hg Hp Hd). cbn.
      rewrite <- !app_assoc. eexists. split; [reflexivity|]. auto.
  - rewrite (_async_update_data_poll_raises _ _ _ _ Hg Hp). cbn.
    eexists. split; [reflexivity|]. auto.
Qed.

(** X2.  Whatever the gateway raises during the poll of a connected
    coordinator, [_async_update_data] raises only [ConfigEntryAuthFailed]
    (exactly when the gateway raised its authentication error) or
    [UpdateFailed]; an exception of any other class, a timeout among
    them, comes out as [UpdateFailed] with its text after
    ["Error communicating with gateway: "]. *)
Theorem poll_raises_only_update_failed_or_auth s gw :
  _gateway s = Some gw ->
  (forall e, fst (_async_update_data s) = Raise e ->
     (exists m, e = UpdateFailed m) \/
     e = ConfigEntryAuthFailed "Authentication failed") /\
  (forall e w',
     poll_status gw (env s) = (Raise e, w') ->
     (fst (_async_update_data s) = Raise (ConfigEntryAuthFailed "Authentication failed")
      <-> exists m, e = IT600AuthenticationError m) /\
     ((forall m, e <> IT600AuthenticationError m) ->
      (forall m, e <> IT600ConnectionError m) ->
      fst (_async_update_data s) =
        Raise (UpdateFailed ("Error communicating with gateway: " ++ exn_str e)))).
Proof.
  intros Hg. split.
  - intros e.
    destruct (poll_status gw (env s)) as [[[]|e0] w'] eqn:Hp.
    + destruct (get_climate_devices gw w') as [[devs|e0] w''] eqn:Hd.
      * rewrite (_async_update_data_ok _ _ _ _ _ Hg Hp Hd). discriminate.
      * rewrite (_async_update_data_get_raises _ _ _ _ _ Hg Hp Hd). cbn.
        intros [= <-]. destruct e0; eauto.
    + rewrite (_async_update_data_poll_raises _ _ _ _ Hg Hp). cbn.
      intros [= <-]. destruct e0; eauto.
  - intros e w' Hp. rewrite (_async_update_data_poll_raises _ _ _ _ Hg Hp). cbn.
    split.
    + split.
      * destruct e; intros Heq; try discriminate Heq; eauto.
      * intros [m ->]. reflexivity.
    + intros Hna Hnc. destruct e; try reflexivity.
      * exfalso. eapply Hna. reflexivity.
      * exfalso. eapply Hnc. reflexivity.
Qed.

(** X3.  An exception raised by [connect] that is neither of the two
    gateway errors is not translated: it leaves [_async_setup], and
    [_async_update_data] with it, as it is, and the gateway is not
    polled. *)
Theorem setup_passes_other_exceptions s e w' :
  _gateway s = None ->
  connect (gateway_of s) (env s) = (Raise e, w') ->
  (forall m, e <> IT600AuthenticationError m) ->
  (forall m, e <> IT600ConnectionError m) ->
  fst (_async_setup s) = Raise e /\
  fst (_async_update_data s) = Raise e /\
  events (snd (_async_update_data s)) =
    (events s ++
     [Log DEBUG "Connecting to Salus gateway at %s" [ArgStr (_host s)];
      GwConnect])%list.
Proof.
  intros Hg Hc Hna Hnc.
  assert (Hs : _async_setup s =
               (Raise e,
                set_env w'
                  (emit GwConnect
                     (set_gateway (Some (gateway_of s))
                        (emit (Log DEBUG "Connecting to Salus gateway at %s"
                                 [ArgStr (_host s)]) s))))).
  { unfold _async_setup, gateway_of in *. py_run. rewrite Hc.
    destruct e; try reflexivity.
    - exfalso. eapply Hna. reflexivity.
    - exfalso. eapply Hnc. reflexivity. }
  rewrite (_async_update_data_setup_fails _ _ _ Hg Hs), Hs. cbn.
  rewrite <- app_assoc. auto.
Qed.

(** The state a failed [_async_setup] leaves. *)
Lemma _async_setup_failed_state s e w' :
  connect (gateway_of s) (env s) = (Raise e, w') ->
  snd (_async_setup s) =
    set_env w'
      (emit GwConnect
         (set_gateway (Some (gateway_of s))
            (emit (Log DEBUG "Connecting to Salus gateway at %s"
                     [ArgStr (_host s)]) s))).
Proof.
  intros Hc. unfold _async_setup, gateway_of in *. py_run. rewrite Hc.
  destruct e; reflexivity.
Qed.

(** X4.  When [connect] fails during the set-up, the gateway object stays
    assigned; the next [_async_update_data] therefore skips the set-up:
    it polls that object and never calls [connect] again. *)
Theorem failed_connect_is_not_retried s e w' :
  _gateway s = None ->
  connect (gateway_of s) (env s) = (Raise e, w') ->
  let s1 := snd (_async_update_data s) in
  let s2 := snd (_async_update_data s1) in
  _gateway s1 = Some (gateway_of s) /\
  (exists tail, events s2 = (events s1 ++ GwPollStatus :: tail)%list) /\
  filter coordinator_view.is_connect (events s2) =
    filter coordinator_view.is_connect (events s1).
Proof.
  intros Hg Hc. cbv zeta.
  destruct (_async_setup_raises _ _ _ Hc) as (e' & s' & Hs).
  pose proof (_async_setup_failed_state _ _ _ Hc) as Hst.
  rewrite Hs in Hst. cbn in Hst.
  rewrite (_async_update_data_setup_fails _ _ _ Hg Hs). cbn [snd].
  assert (Hg1 : _gateway s' = Some (gateway_of s)) by (subst s'; reflexivity).
  split; [exact Hg1|].
  destruct (steady_poll_events _ _ Hg1) as (tail & Hev & Htail).
  split; [eauto|].
  rewrite Hev, filter_app. cbn.
  destruct Htail as [-> | [-> | (n & ->)]]; cbn; apply app_nil_r.
Qed.

Lemma steady_poll_attributes s gw :
  _gateway s = Some gw ->
  coordinator_view.attributes (snd (_async_update_data s)) =
    coordinator_view.attributes s.
Proof.
  intros Hg.
  destruct (poll_status gw (env s)) as [[[]|e] w'] eqn:Hp.
  - destruct (get_climate_devices gw w') as [[devs|e] w''] eqn:Hd.
    + rewrite (_async_update_data_ok _ _ _ _ _ Hg Hp Hd). reflexivity.
    + rewrite (_async_update_data_get_raises _ _ _ _ _ Hg Hp Hd). reflexivity.
  - rewrite (_async_update_data_poll_raises _ _ _ _ Hg Hp). reflexivity.
Qed.

(** X5.  A poll of a connected coordinator changes no attribute of the
    coordinator object: host, EUID, gateway object, published data and
    success flag are what they were.  Its gateway calls are
    [poll_status] followed by at most one [get_climate_devices]. *)
Theorem poll_keeps_coordinator_attributes s gw :
  _gateway s = Some gw ->
  coordinator_view.attributes (snd (_async_update_data s)) =
    coordinator_view.attributes s /\
  (filter is_gateway_call (events (snd (_async_update_data s))) =
     (filter is_gateway_call (events s) ++ [GwPollStatus])%list \/
   filter is_gateway_call (events (snd (_async_update_data s))) =
     (filter is_gateway_call (events s) ++ [GwPollStatus; GwGetClimateDevices])%list).
Proof.
  intros Hg. split; [exact (steady_poll_attributes _ _ Hg)|].
  destruct (steady_poll_events _ _ Hg) as (tail & -> & Htail).
  rewrite filter_app.
  destruct Htail as [-> | [-> | (n & ->)]]; cbn; auto.
Qed.

(** *** Closing and reopening *)

(** X6.  [async_close] on a connected coordinator calls the gateway's
    [close] once, logs it, and touches nothing else: the published
    snapshot stays, and the entities go on reading it. *)
Theorem close_keeps_snapshot s gw :
  _gateway s = Some gw ->
  let s1 := snd (async_close s) in
  events s1 =
    (events s ++
     [GwClose; Log DEBUG "Closed connection to Salus gateway" []])%list /\
  env s1 = close gw (env s) /\
  data s1 = data s /\
  last_update_success s1 = last_update_success s /\
  forall ent, fst (climate._device_data ent s1) = fst (climate._device_data ent s).
Proof.
  intros Hg. cbv zeta. rewrite (async_close_open _ _ Hg). cbn [snd].
  split; [cbn; rewrite <- app_assoc; reflexivity|].
  repeat (split; [reflexivity|]).
  intros ent. apply _device_data_reads_data. reflexivity.
Qed.

(** X7.  A closed coordinator can be refreshed again: the next
    [_async_update_data] builds a gateway object from the coordinator's
    own host and EUID, connects it, and only then polls. *)
Theorem refresh_after_close_reconnects s gw w' :
  _gateway s = Some gw ->
  connect (gateway_of s) (close gw (env s)) = (Return tt, w') ->
  let s1 := snd (async_close s) in
  let s2 := snd (_async_update_data s1) in
  _gateway s2 = Some (gateway_of s) /\
  exists tail,
    events s2 =
      (events s1 ++
       [Log DEBUG "Connecting to Salus gateway at %s" [ArgStr (_host s)];
        GwConnect;
        Log DEBUG "Successfully connected to Salus gateway" [];
        GwPollStatus] ++ tail)%list.
Proof.
  intros Hg Hc. cbv zeta. rewrite (async_close_open _ _ Hg). cbn [snd].
  set (s1 := emit _ _).
  assert (Hg1 : _gateway s1 = None) by reflexivity.
  assert (Hc1 : connect (gateway_of s1) (env s1) = (Return tt, w')) by exact Hc.
  rewrite (_async_update_data_bootstrap _ _ Hg1 Hc1).
  assert (Hg2 : _gateway (connected s1 w') = Some (gateway_of s)) by reflexivity.
  pose proof (steady_poll_attributes _ _ Hg2) as Hattr.
  split.
  - unfold coordinator_view.attributes in Hattr.
    injection Hattr as _ _ Hgw _ _. rewrite Hgw. reflexivity.
  - destruct (steady_poll_events _ _ Hg2) as (tail & Hev & _).
    exists tail. rewrite Hev. cbn. rewrite <- !app_assoc. reflexivity.
Qed.

End PollingFacts.

Lemma successful_poll_publishes_devices_witness :
  let s := scripted.running scripted.healthy in
  data (async_refresh s) = Some [("climate", scripted.devices)] /\
  climate._device_data (climate.new_entity "dev2" "entry") (async_refresh s) =
    (Return (Some scripted.dev2), async_refresh s) /\
  climate._device_data (climate.new_entity "gone" "entry") (async_refresh s) =
    (Return None, async_refresh s).
Proof.
  cbv zeta.
  destruct (successful_poll_publishes_devices
              (scripted.running scripted.healthy) scripted.gw0 scripted.devices
              scripted.healthy scripted.healthy)
    as (_ & Hd & _ & Hread & _); [reflexivity | reflexivity | reflexivity |].
  split; [exact Hd|]. split; apply Hread.
Defined.

Lemma poll_raises_only_update_failed_or_auth_witness :
  let s := scripted.running scripted_host.hangs in
  fst (_async_update_data s) =
    Raise (UpdateFailed "Error communicating with gateway: ").
Proof.
  cbv zeta.
  destruct (poll_raises_only_update_failed_or_auth
              (scripted.running scripted_host.hangs) scripted.gw0 eq_refl)
    as [_ Hcls].
  destruct (Hcls (OtherException "TimeoutError" "") scripted_host.hangs)
    as [_ Hother]; [reflexivity|].
  apply Hother; discriminate.
Defined.

Lemma setup_passes_other_exceptions_witness :
  let s := scripted.fresh scripted_host.hangs in
  fst (_async_update_data s) = Raise (OtherException "TimeoutError" "") /\
  raises_class "UpdateFailed" (fst (_async_update_data s)) = false.
Proof.
  cbv zeta.
  destruct (setup_passes_other_exceptions
              (scripted.fresh scripted_host.hangs)
              (OtherException "TimeoutError" "") scripted_host.hangs)
    as (_ & Hr & _); [reflexivity | reflexivity | discriminate | discriminate |].
  rewrite Hr. split; reflexivity.
Defined.

Lemma failed_connect_is_not_retried_witness :
  let s := scripted.fresh scripted.unreachable in
  let s1 := snd (_async_update_data s) in
  let s2 := snd (_async_update_data s1) in
  _gateway s1 = Some scripted.gw0 /\
  filter coordinator_view.is_connect (events s2) = [GwConnect].
Proof.
  cbv zeta.
  destruct (failed_connect_is_not_retried
              (scripted.fresh scripted.unreachable)
              (IT600ConnectionError "timed out") scripted.unreachable)
    as (Hg & _ & Hc); [reflexivity | reflexivity |].
  split; [exact Hg|]. rewrite Hc. reflexivity.
Defined.

Lemma close_keeps_snapshot_witness :
  let s := scripted.running scripted.healthy in
  data (snd (async_close s)) = data s /\
  fst (climate._device_data (climate.new_entity "dev1" "entry") (snd (async_close s)))
    = Return (Some scripted.dev1).
Proof.
  cbv zeta.
  destruct (close_keeps_snapshot (scripted.running scripted.healthy) scripted.gw0)
    as (_ & _ & Hd & _ & Hread); [reflexivity|].
  split; [exact Hd|]. rewrite Hread. reflexivity.
Defined.

Lemma refresh_after_close_reconnects_witness :
  let s := scripted.running scripted.healthy in
  filter is_gateway_call (events (snd (_async_update_data (snd (async_close s))))) =
    [GwClose; GwConnect; GwPollStatus; GwGetClimateDevices].
Proof.
  cbv zeta.
  destruct (refresh_after_close_reconnects
              (scripted.running scripted.healthy) scripted.gw0 scripted.healthy)
    as (_ & tail & Hev); [reflexivity | reflexivity |].
  reflexivity.
Defined.

Lemma poll_keeps_coordinator_attributes_witness :
  let s := scripted.running scripted.unreachable in
  coordinator_view.attributes (snd (_async_update_data s)) =
    coordinator_view.attributes s.
Proof.
  cbv zeta.
  exact (proj1 (poll_keeps_coordinator_attributes
                  (scripted.running scripted.unreachable) scripted.gw0 eq_refl)).
Defined.

(** ** Commands and the snapshot *)

Section CommandFrame.
Context {W : Type} {lib : GatewayLibrary W}.
Implicit Types (s : World W) (gw : IT600Gateway).

(** The entity properties read [data] and nothing else. *)
Lemma entity_reads_follow_data (ent : climate.SalusClimateEntity) s s' :
  data s' = data s ->
  fst (climate.target_temperature ent s') = fst (climate.target_temperature ent s) /\
  fst (climate.hvac_mode ent s') = fst (climate.hvac_mode ent s) /\
  fst (climate.preset_mode ent s') = fst (climate.preset_mode ent s).
Proof.
  intros Hd.
  unfold climate.target_temperature, climate.hvac_mode, climate.preset_mode,
    climate._device_data.
  py_unfold. rewrite Hd. destruct (data s); repeat split.
Qed.

(** X8.  A command whose gateway call raises does not reach the refresh
    request and writes nothing to the coordinator object: host, EUID,
    gateway object, published data and success flag are what they were.
    The coordinator stays connected, and each entity reads the target
    temperature, the mode and the preset it read before the command. *)
Theorem failed_commands_leave_snapshot s gw :
  _gateway s = Some gw ->
  (forall id t e w',
      set_climate_device_temperature gw id t (env s) = (Raise e, w') ->
      let s' := snd (async_set_temperature id t s) in
      coordinator_view.attributes s' = coordinator_view.attributes s /\
      filter is_refresh_request (events s') = filter is_refresh_request (events s) /\
      forall ent,
        fst (climate.target_temperature ent s') =
          fst (climate.target_temperature ent s)) /\
  (forall id m e w',
      set_climate_device_mode gw id m (env s) = (Raise e, w') ->
      let s' := snd (async_set_hvac_mode id m s) in
      coordinator_view.attributes s' = coordinator_view.attributes s /\
      filter is_refresh_request (events s') = filter is_refresh_request (events s) /\
      forall ent, fst (climate.hvac_mode ent s') = fst (climate.hvac_mode ent s)) /\
  (forall id p e w',
      set_climate_device_preset gw id p (env s) = (Raise e, w') ->
      let s' := snd (async_set_preset_mode id p s) in
      coordinator_view.attributes s' = coordinator_view.attributes s /\
      filter is_refresh_request (events s') = filter is_refresh_request (events s) /\
      forall ent, fst (climate.preset_mode ent s') = fst (climate.preset_mode ent s)).
Proof.
  intros Hg. split; [|split].
  - intros id t e w' Hc. cbv zeta.
    rewrite (async_set_temperature_raises _ _ _ _ _ _ Hg Hc). cbn [snd].
    split; [reflexivity|]. split.
    + cbn. rewrite filter_app. cbn. apply app_nil_r.
    + intros ent. apply entity_reads_follow_data. reflexivity.
  - intros id m e w' Hc. cbv zeta.
    rewrite (async_set_hvac_mode_raises _ _ _ _ _ _ Hg Hc). cbn [snd].
    split; [reflexivity|]. split.
    + cbn. rewrite filter_app. cbn. apply app_nil_r.
    + intros ent. apply entity_reads_follow_data. reflexivity.
  - intros id p e w' Hc. cbv zeta.
    rewrite (async_set_preset_mode_raises _ _ _ _ _ _ Hg Hc). cbn [snd].
    split; [reflexivity|]. split.
    + cbn. rewrite filter_app. cbn. apply app_nil_r.
    + intros ent. apply entity_reads_follow_data. reflexivity.
Qed.

End CommandFrame.

Lemma failed_commands_leave_snapshot_witness :
  let s := scripted.running scripted.unreachable in
  let s' := snd (async_set_temperature "dev1" 25 s) in
  coordinator_view.attributes s' = coordinator_view.attributes s /\
  fst (climate.target_temperature (climate.new_entity "dev1" "entry") s') =
    Return (Some 19.5%float).
Proof.
  cbv zeta.
  destruct (failed_commands_leave_snapshot
              (scripted.running scripted.unreachable) scripted.gw0)
    as (Ht & _); [reflexivity|].
  destruct (Ht "dev1" 25%float (IT600ConnectionError "timed out")
              scripted.unreachable) as (Hattr & _ & Hread); [reflexivity|].
  split; [exact Hattr|]. rewrite Hread. reflexivity.
Defined.

(** ** Entities *)

Section EntityFacts.
Context {W : Type} {lib : GatewayLibrary W}.
Implicit Types (s : World W) (ent : climate.SalusClimateEntity).

Ltac entity_run :=
  unfold climate.available, climate.name, climate.current_temperature,
    climate.target_temperature, climate.min_temp, climate.max_temp,
    climate.hvac_mode, climate.hvac_action, climate.preset_mode,
    climate_device.device_info, climate._device_data;
  py_unfold.

Lemma hvac_mode_lookup_range raw :
  In (PyDict.get_default String.eqb raw HEAT climate.HVAC_MODE_MAP)
     [HEAT; OFF; AUTO].
Proof.
  unfold PyDict.get_default. cbn.
  destruct (raw =? "heat")%string; [cbn; auto|].
  destruct (raw =? "off")%string; [cbn; auto|].
  destruct (raw =? "auto")%string; cbn; auto.
Qed.

Lemma hvac_action_lookup_range raw :
  In (PyDict.get_default String.eqb raw HVACAction.IDLE climate.HVAC_ACTION_MAP)
     [HVACAction.HEATING; HVACAction.IDLE; HVACAction.OFF].
Proof.
  unfold PyDict.get_default. cbn.
  destruct (raw =? "heating")%string; [cbn; auto|].
  destruct (raw =? "idle")%string; [cbn; auto|].
  destruct (raw =? "off")%string; cbn; auto.
Qed.

(** X9.  Once a snapshot is published, the [hvac_mode] property returns
    one of HEAT, OFF and AUTO and [hvac_action] returns nothing or one of
    HEATING, IDLE and OFF, whatever the gateway reported and whether or
    not the device is still there; neither raises or changes anything. *)
Theorem hvac_properties_range ent s d :
  data s = Some d ->
  (exists m, climate.hvac_mode ent s = (Return m, s) /\ In m [HEAT; OFF; AUTO]) /\
  (exists a, climate.hvac_action ent s = (Return a, s) /\
             (a = None \/
              exists act, a = Some act /\
                In act [HVACAction.HEATING; HVACAction.IDLE; HVACAction.OFF])).
Proof.
  intros Hd. split.
  - entity_run. rewrite Hd.
    destruct (PyDict.get _ _ _) as [dev|]; [|cbn; eauto].
    destruct (hvac_mode dev) as [raw|]; [|cbn; eauto].
    eexists. split; [reflexivity|]. apply hvac_mode_lookup_range.
  - entity_run. rewrite Hd.
    destruct (PyDict.get _ _ _) as [dev|]; [|eauto].
    destruct (hvac_action dev) as [raw|]; [|eauto].
    eexists. split; [reflexivity|]. right. eexists. split; [reflexivity|].
    apply hvac_action_lookup_range.
Qed.

(** X10.  An entity whose device is no longer in the published snapshot
    does not fail: it is unavailable, is called ["Salus <id>"], has no
    current or target temperature, no action and no preset, and reports
    the bounds 5 and 35 and the mode HEAT. *)
Theorem missing_device_defaults ent s d :
  data s = Some d ->
  PyDict.get String.eqb (climate._device_id ent)
    (PyDict.get_default String.eqb "climate" [] d) = None ->
  climate.available ent s = (Return false, s) /\
  climate.name ent s = (Return ("Salus " ++ climate._device_id ent), s) /\
  climate.current_temperature ent s = (Return None, s) /\
  climate.target_temperature ent s = (Return None, s) /\
  climate.min_temp ent s = (Return 5%float, s) /\
  climate.max_temp ent s = (Return 35%float, s) /\
  climate.hvac_mode ent s = (Return HEAT, s) /\
  climate.hvac_action ent s = (Return None, s) /\
  climate.preset_mode ent s = (Return None, s).
Proof.
  intros Hd Hdev. repeat split; entity_run; rewrite Hd, Hdev; reflexivity.
Qed.

(** X11.  Before any snapshot is published the entity properties do not
    fall back to their defaults: each read raises [AttributeError], and
    so does the platform set-up. *)
Theorem unpublished_data_raises ent s :
  data s = None ->
  let err := AttributeError "'NoneType' object has no attribute 'get'" in
  climate.available ent s = (Raise err, s) /\
  climate.name ent s = (Raise err, s) /\
  climate.target_temperature ent s = (Raise err, s) /\
  climate.hvac_mode ent s = (Raise err, s) /\
  climate.hvac_action ent s = (Raise err, s) /\
  (forall entry_id, climate.async_setup_entry entry_id s = (Raise err, s)).
Proof.
  intros Hd. cbv zeta.
  repeat split; try (entity_run; rewrite Hd; reflexivity).
  intros entry_id. unfold climate.async_setup_entry. py_unfold. rewrite Hd.
  reflexivity.
Qed.

(** X12.  The name in [device_info] is the name the [name] property
    returns, the device's own or ["Salus <id>"], and the identifier is
    the pair of the domain and the device id. *)
Theorem device_info_matches_name ent s n :
  climate.name ent s = (Return n, s) ->
  exists info,
    climate_device.device_info ent s = (Return info, s) /\
    climate_device.name info = n /\
    climate_device.identifiers info = [("salus", climate._device_id ent)] /\
    climate_device.manufacturer info = "Salus".
Proof.
  entity_run. destruct (data s) as [d|]; [|discriminate].
  intros [= <-]. eexists. split; [reflexivity|]. auto.
Qed.

End EntityFacts.

Lemma hvac_properties_range_witness :
  let s := scripted.running scripted.healthy in
  climate.hvac_mode (climate.new_entity "dev1" "entry") s = (Return HEAT, s) /\
  climate.hvac_action (climate.new_entity "dev1" "entry") s =
    (Return (Some HVACAction.HEATING), s).
Proof.
  cbv zeta.
  destruct (hvac_properties_range (climate.new_entity "dev1" "entry")
              (scripted.running scripted.healthy) _ eq_refl)
    as [(m & Hm & _) (a & Ha & _)].
  split; reflexivity.
Defined.

Lemma missing_device_defaults_witness :
  let s := scripted.running scripted.healthy in
  let ent := climate.new_entity "gone" "entry" in
  climate.available ent s = (Return false, s) /\
  climate.name ent s = (Return "Salus gone", s) /\
  climate.hvac_mode ent s = (Return HEAT, s).
Proof.
  cbv zeta.
  destruct (missing_device_defaults (climate.new_entity "gone" "entry")
              (scripted.running scripted.healthy) _ eq_refl eq_refl)
    as (Ha & Hn & _ & _ & _ & _ & Hm & _).
  split; [exact Ha|]. split; [exact Hn | exact Hm].
Defined.

Lemma unpublished_data_raises_witness :
  let s := scripted.fresh scripted.healthy in
  fst (climate.hvac_mode (climate.new_entity "dev1" "entry") s) =
    Raise (AttributeError "'NoneType' object has no attribute 'get'").
Proof.
  cbv zeta.
  destruct (unpublished_data_raises (climate.new_entity "dev1" "entry")
              (scripted.fresh scripted.healthy) eq_refl)
    as (_ & _ & _ & Hm & _).
  rewrite Hm. reflexivity.
Defined.

Lemma device_info_matches_name_witness :
  let s := scripted.running scripted.healthy in
  exists info,
    climate_device.device_info (climate.new_entity "dev1" "entry") s =
      (Return info, s) /\
    climate_device.name info = "Living room".
Proof.
  cbv zeta.
  destruct (device_info_matches_name (climate.new_entity "dev1" "entry")
              (scripted.running scripted.healthy) "Living room" eq_refl)
    as (info & Hi & Hn & _).
  exists info. split; assumption.
Defined.

(** ** Entity commands and the platform set-up *)

Section EntityCommandFacts.
Context {W : Type} {lib : GatewayLibrary W}.
Implicit Types (s : World W) (ent : climate.SalusClimateEntity).

Lemma reverse_map_value (m : HVACMode) :
  In m [HEAT; OFF; AUTO] ->
  PyDict.get HVACMode_eqb m climate.HVAC_MODE_REVERSE_MAP = Some (HVACMode_value m).
Proof. intros [<- | [<- | [<- | []]]]; reflexivity. Qed.

(** X13.  For HEAT, OFF and AUTO the entity hands the coordinator its
    own device id and the enum member's own string value, which the mode
    table maps back to the member, after one debug record; on a connected
    coordinator the next thing in the trace is the gateway's
    [set_climate_device_mode] with that id and that value. *)
Theorem set_hvac_mode_sends_enum_value ent (m : HVACMode) s :
  In m [HEAT; OFF; AUTO] ->
  let id := climate._device_id ent in
  let logged :=
    Log DEBUG "Setting HVAC mode for %s to %s"
      [ArgStr id; ArgStr (HVACMode_value m)] in
  climate.async_set_hvac_mode ent m s =
    coordinator.async_set_hvac_mode id (HVACMode_value m) (emit logged s) /\
  PyDict.get String.eqb (HVACMode_value m) climate.HVAC_MODE_MAP = Some m /\
  (forall gw,
      _gateway s = Some gw ->
      exists tail,
        events (snd (climate.async_set_hvac_mode ent m s)) =
          (events s ++ [logged; GwSetMode id (HVACMode_value m)] ++ tail)%list).
Proof.
  intros Hm. cbv zeta.
  assert (Hrun : climate.async_set_hvac_mode ent m s =
                 coordinator.async_set_hvac_mode (climate._device_id ent)
                   (HVACMode_value m)
                   (emit (Log DEBUG "Setting HVAC mode for %s to %s"
                            [ArgStr (climate._device_id ent);
                             ArgStr (HVACMode_value m)]) s)).
  { unfold climate.async_set_hvac_mode. rewrite (reverse_map_value _ Hm).
    reflexivity. }
  split; [exact Hrun|]. split.
  { destruct Hm as [<- | [<- | [<- | []]]]; reflexivity. }
  intros gw Hg. rewrite Hrun.
  match goal with
  | |- context [coordinator.async_set_hvac_mode ?i ?v (emit ?l s)] =>
      destruct (set_climate_device_mode gw i v (env (emit l s)))
        as [[[]|e] w'] eqn:Hc;
      [ rewrite (async_set_hvac_mode_ok (emit l s) gw i v w' Hg Hc)
      | rewrite (async_set_hvac_mode_raises (emit l s) gw i v e w' Hg Hc) ]
  end; cbn; rewrite <- ?app_assoc; eexists; reflexivity.
Qed.

(** X14.  The entity passes a target temperature and a preset on as they
    come, under its own device id: no temperature is held against
    [min_temp] or [max_temp] and no preset against [preset_modes].  With
    no temperature in the call, nothing happens at all. *)
Theorem entity_commands_are_not_validated ent s gw :
  _gateway s = Some gw ->
  let id := climate._device_id ent in
  climate.async_set_temperature ent None s = (Return tt, s) /\
  (forall t w',
      set_climate_device_temperature gw id t (env s) = (Return tt, w') ->
      fst (climate.async_set_temperature ent (Some t) s) = Return tt /\
      events (snd (climate.async_set_temperature ent (Some t) s)) =
        (events s ++
         [Log DEBUG "Setting temperature for %s to %s" [ArgStr id; ArgFloat t];
          GwSetTemperature id t; RequestRefresh])%list) /\
  (forall p w',
      set_climate_device_preset gw id p (env s) = (Return tt, w') ->
      fst (climate.async_set_preset_mode ent p s) = Return tt /\
      events (snd (climate.async_set_preset_mode ent p s)) =
        (events s ++
         [Log DEBUG "Setting preset mode for %s to %s" [ArgStr id; ArgStr p];
          GwSetPreset id p; RequestRefresh])%list).
Proof.
  intros Hg. cbv zeta. split; [reflexivity|]. split.
  - intros t w' Hc.
    set (logged := Log DEBUG "Setting temperature for %s to %s"
                     [ArgStr (climate._device_id ent); ArgFloat t]).
    assert (Hrun : climate.async_set_temperature ent (Some t) s =
                   coordinator.async_set_temperature (climate._device_id ent) t
                     (emit logged s)) by reflexivity.
    rewrite Hrun,
      (async_set_temperature_ok (emit logged s) gw _ _ w' Hg Hc).
    cbn. rewrite <- ?app_assoc. auto.
  - intros p w' Hc.
    set (logged := Log DEBUG "Setting preset mode for %s to %s"
                     [ArgStr (climate._device_id ent); ArgStr p]).
    assert (Hrun : climate.async_set_preset_mode ent p s =
                   coordinator.async_set_preset_mode (climate._device_id ent) p
                     (emit logged s)) by reflexivity.
    rewrite Hrun,
      (async_set_preset_mode_ok (emit logged s) gw _ _ w' Hg Hc).
    cbn. rewrite <- ?app_assoc. auto.
Qed.

(** X15.  The list [hvac_modes] announces HEAT and OFF only, yet the
    entity reports AUTO for a device whose raw mode is ["auto"]: the mode
    it reports need not be one it announces. *)
Theorem auto_is_reported_but_not_announced ent s d dev :
  data s = Some d ->
  PyDict.get String.eqb (climate._device_id ent)
    (PyDict.get_default String.eqb "climate" [] d) = Some dev ->
  hvac_mode dev = Some "auto" ->
  climate.hvac_mode ent s = (Return AUTO, s) /\
  ~ In AUTO climate.hvac_modes /\
  (forall m, In m climate.hvac_modes -> In m [HEAT; OFF; AUTO]).
Proof.
  intros Hd Hdev Hraw. split; [|split].
  - unfold climate.hvac_mode, climate._device_data. py_unfold.
    rewrite Hd, Hdev, Hraw. reflexivity.
  - intros [H | [H | []]]; discriminate.
  - intros m [<- | [<- | []]]; cbn; auto.
Qed.

Lemma get_of_key {V} k (d : PyDict.t string V) :
  In k (PyDict.keys d) -> exists v, PyDict.get String.eqb k d = Some v.
Proof.
  induction d as [|[k' v'] d IH]; cbn; [intros []|].
  destruct (String.eqb_spec k k') as [-> | Hne]; [eauto|].
  intros [Heq | Hin]; [congruence | auto].
Qed.

(** X16.  The platform set-up builds one entity for each device id of
    the published snapshot, in the snapshot's order, with the unique id
    ["<entry id>_<device id>"]; every entity it builds finds its device;
    it logs their number and changes nothing else. *)
Theorem setup_entry_builds_one_entity_per_device (entry_id : string) s d :
  data s = Some d ->
  let devs := PyDict.get_default String.eqb "climate" [] d in
  exists ents,
    climate.async_setup_entry entry_id s =
      (Return ents,
       emit (Log DEBUG "Adding %d climate entities" [ArgInt (PyDict.len devs)]) s) /\
    map climate._device_id ents = PyDict.keys devs /\
    List.length ents = PyDict.len devs /\
    Forall (fun ent =>
              climate._attr_unique_id ent = entry_id ++ "_" ++ climate._device_id ent /\
              exists dev, climate._device_data ent s = (Return (Some dev), s))
           ents.
Proof.
  intros Hd. cbv zeta.
  set (devs := PyDict.get_default String.eqb "climate" [] d).
  exists (map (fun device_id => climate.new_entity device_id entry_id)
              (PyDict.keys devs)).
  split; [|split; [|split]].
  - unfold climate.async_setup_entry. py_unfold. rewrite Hd.
    fold devs. rewrite length_map. unfold PyDict.keys, PyDict.len.
    rewrite length_map. reflexivity.
  - rewrite map_map. cbn. apply map_id.
  - rewrite length_map. unfold PyDict.keys, PyDict.len. apply length_map.
  - apply Forall_forall. intros ent Hin.
    apply in_map_iff in Hin as (k & <- & Hk). split; [reflexivity|].
    destruct (get_of_key _ _ Hk) as (dev & Hget). exists dev.
    unfold climate._device_data. py_unfold. rewrite Hd. cbn.
    fold devs. rewrite Hget. reflexivity.
Qed.

Lemma append_cancel_l (p a b : string) : (p ++ a = p ++ b)%string -> a = b.
Proof.
  induction p as [|c p IH]; cbn; intros H; [exact H|].
  injection H as H. auto.
Qed.

(** X17.  Within one config entry, different device ids give different
    unique ids: when the device ids of the snapshot are pairwise
    distinct, as the keys of a dict are, so are the unique ids of the
    entities the set-up builds. *)
Theorem unique_ids_are_distinct (entry_id : string) s d ents s' :
  data s = Some d ->
  NoDup (PyDict.keys (PyDict.get_default String.eqb "climate" [] d)) ->
  climate.async_setup_entry entry_id s = (Return ents, s') ->
  NoDup (map climate._attr_unique_id ents) /\
  (forall a b, climate._attr_unique_id (climate.new_entity a entry_id) =
               climate._attr_unique_id (climate.new_entity b entry_id) -> a = b).
Proof.
  intros Hd Hnd Hrun.
  assert (Hinj : forall a b,
             climate._attr_unique_id (climate.new_entity a entry_id) =
             climate._attr_unique_id (climate.new_entity b entry_id) -> a = b).
  { intros a b H. cbn in H.
    apply append_cancel_l in H. apply (append_cancel_l "_") in H. exact H. }
  split; [|exact Hinj].
  unfold climate.async_setup_entry in Hrun.
  cbv beta delta [bind ret raise gets modify log] in Hrun. rewrite Hd in Hrun.
  injection Hrun as <- _.
  rewrite map_map.
  induction Hnd as [|k ks Hk Hnd IH]; cbn; constructor; [|exact IH].
  intros Hin. apply in_map_iff in Hin as (k' & Heq & Hin').
  apply Hinj in Heq. subst k'. contradiction.
Qed.

End EntityCommandFacts.

Lemma set_hvac_mode_sends_enum_value_witness :
  let s := scripted.running scripted.unreachable in
  exists tail,
    events (snd (climate.async_set_hvac_mode (climate.new_entity "dev1" "entry") OFF s)) =
      ([Log DEBUG "Setting HVAC mode for %s to %s" [ArgStr "dev1"; ArgStr "off"];
        GwSetMode "dev1" "off"] ++ tail)%list.
Proof.
  cbv zeta.
  destruct (set_hvac_mode_sends_enum_value (climate.new_entity "dev1" "entry") OFF
              (scripted.running scripted.unreachable)) as (_ & _ & Hsend);
    [cbn; auto|].
  destruct (Hsend scripted.gw0) as (tail & Hev); [reflexivity|].
  exists tail. exact Hev.
Defined.

Lemma entity_commands_are_not_validated_witness :
  let s := scripted.running scripted.healthy in
  let ent := climate.new_entity "dev1" "entry" in
  ~ In "Party" climate.preset_modes /\
  fst (climate.async_set_preset_mode ent "Party" s) = Return tt /\
  filter is_gateway_call (events (snd (climate.async_set_preset_mode ent "Party" s))) =
    [GwSetPreset "dev1" "Party"].
Proof.
  cbv zeta.
  destruct (entity_commands_are_not_validated (climate.new_entity "dev1" "entry")
              (scripted.running scripted.healthy) scripted.gw0)
    as (_ & _ & Hpreset); [reflexivity|].
  destruct (Hpreset "Party" scripted.healthy) as [Hr Hev]; [reflexivity|].
  split; [|split; [exact Hr | rewrite Hev; reflexivity]].
  intros [H | [H | [H | []]]]; discriminate.
Defined.

Lemma auto_is_reported_but_not_announced_witness :
  let s := scripted_host.scheduled scripted.healthy in
  climate.hvac_mode (climate.new_entity "dev3" "entry") s = (Return AUTO, s) /\
  ~ In AUTO climate.hvac_modes.
Proof.
  cbv zeta.
  destruct (auto_is_reported_but_not_announced
              (climate.new_entity "dev3" "entry")
              (scripted_host.scheduled scripted.healthy) _ scripted_host.dev3
              eq_refl eq_refl eq_refl) as (Hm & Hn & _).
  split; assumption.
Defined.

Lemma setup_entry_builds_one_entity_per_device_witness :
  let s := scripted.running scripted.healthy in
  exists ents,
    fst (climate.async_setup_entry "entry" s) = Return ents /\
    map climate._device_id ents = ["dev1"; "dev2"].
Proof.
  cbv zeta.
  destruct (setup_entry_builds_one_entity_per_device "entry"
              (scripted.running scripted.healthy) _ eq_refl)
    as (ents & Hrun & Hids & _).
  exists ents. rewrite Hrun. split; [reflexivity | exact Hids].
Defined.

Lemma unique_ids_are_distinct_witness :
  NoDup ["entry_dev1"; "entry_dev2"].
Proof.
  refine (proj1 (unique_ids_are_distinct "entry"
                   (scripted.running scripted.healthy) _
                   [climate.new_entity "dev1" "entry"; climate.new_entity "dev2" "entry"]
                   _ eq_refl _ eq_refl)).
  repeat constructor; cbn; intuition discriminate.
Defined.

(** ** The configuration flow *)

Module Import flow_facts.

Import config_entry_flow.

Ltac flow_unfold :=
  cbv beta delta
    [bind ret raise try_except gets modify config_entry_flow.gateway_call
     config_entry_flow.gateway_do config_entry_flow.handler_call
     config_entry_flow.emit].

Section FlowFacts.
Context {W : Type} {lib : GatewayLibrary W}.
Context {H : Type} {handler : FlowHandler H}.
Implicit Types (s : World W H) (user_input : PyDict.t string string).

(** The EUID the step works with. *)
Local Abbreviation euid_of user_input :=
  (PyDict.get_default String.eqb const.CONF_EUID const.DEFAULT_EUID user_input).

Lemma step_invalid_euid s user_input host :
  PyDict.get String.eqb const.CONF_HOST user_input = Some host ->
  config_flow.validate_euid (euid_of user_input) = false ->
  async_step_user (Some user_input) s =
    (Return (ShowForm "user" data_schema [("euid", "invalid_euid")]), s).
Proof.
  intros Hh Hv. unfold async_step_user. rewrite Hh, Hv. reflexivity.
Qed.

Lemma step_connect_raises s user_input host e w' :
  PyDict.get String.eqb const.CONF_HOST user_input = Some host ->
  config_flow.validate_euid (euid_of user_input) = true ->
  let gw := {| pyit600.host := host; pyit600.euid := euid_of user_input |} in
  connect gw (env s) = (Raise e, w') ->
  async_step_user (Some user_input) s =
    (Return (ShowForm "user" data_schema
               [("base",
                 match e with
                 | IT600AuthenticationError _ => "invalid_euid"
                 | IT600ConnectionError _ => "cannot_connect"
                 | _ => "unknown"
                 end)]),
     {| env := w'; flow := flow s;
        events :=
          (events s ++ Connect gw ::
             match e with
             | IT600AuthenticationError _ | IT600ConnectionError _ => []
             | _ => [LogException "Unexpected exception during connection" e]
             end)%list |}).
Proof.
  intros Hh Hv gw Hc. unfold async_step_user. rewrite Hh, Hv. cbn [negb].
  flow_unfold. fold gw. rewrite Hc.
  destruct e; cbn; rewrite <- ?app_assoc; reflexivity.
Qed.

Lemma step_handler_raises s user_input host w' e h' :
  PyDict.get String.eqb const.CONF_HOST user_input = Some host ->
  config_flow.validate_euid (euid_of user_input) = true ->
  let gw := {| pyit600.host := host; pyit600.euid := euid_of user_input |} in
  connect gw (env s) = (Return tt, w') ->
  (async_set_unique_id host (flow s) = (Raise e, h') \/
   exists h1, async_set_unique_id host (flow s) = (Return tt, h1) /\
              _abort_if_unique_id_configured h1 = (Raise e, h')) ->
  exists called,
    (called = [SetUniqueId host] \/
     called = [SetUniqueId host; AbortIfUniqueIdConfigured]) /\
    async_step_user (Some user_input) s =
      (Return (ShowForm "user" data_schema
                 [("base",
                   match e with
                   | IT600AuthenticationError _ => "invalid_euid"
                   | IT600ConnectionError _ => "cannot_connect"
                   | _ => "unknown"
                   end)]),
       {| env := close gw w'; flow := h';
          events :=
            (events s ++ [Connect gw; Close gw] ++ called ++
               match e with
               | IT600AuthenticationError _ | IT600ConnectionError _ => []
               | _ => [LogException "Unexpected exception during connection" e]
               end)%list |}).
Proof.
  intros Hh Hv gw Hc Hfail. unfold async_step_user. rewrite Hh, Hv. cbn [negb].
  flow_unfold. fold gw. rewrite Hc. cbn.
  destruct Hfail as [Hu | (h1 & Hu & Ha)].
  - exists [SetUniqueId host]. split; [auto|]. rewrite Hu.
    destruct e; cbn; rewrite <- ?app_assoc; reflexivity.
  - exists [SetUniqueId host; AbortIfUniqueIdConfigured]. split; [auto|].
    rewrite Hu. cbn. rewrite Ha.
    destruct e; cbn; rewrite <- ?app_assoc; reflexivity.
Qed.

Lemma step_creates_entry s user_input host w' h1 h2 :
  PyDict.get String.eqb const.CONF_HOST user_input = Some host ->
  config_flow.validate_euid (euid_of user_input) = true ->
  let gw := {| pyit600.host := host; pyit600.euid := euid_of user_input |} in
  connect gw (env s) = (Return tt, w') ->
  async_set_unique_id host (flow s) = (Return tt, h1) ->
  _abort_if_unique_id_configured h1 = (Return tt, h2) ->
  async_step_user (Some user_input) s =
    (Return (CreateEntry ("Salus Gateway (" ++ host ++ ")")
               [("host", host); ("euid", euid_of user_input)]),
     {| env := close gw w'; flow := h2;
        events :=
          (events s ++
           [Connect gw; Close gw; SetUniqueId host; AbortIfUniqueIdConfigured])%list |}).
Proof.
  intros Hh Hv gw Hc Hu Ha. unfold async_step_user. rewrite Hh, Hv. cbn [negb].
  flow_unfold. fold gw. rewrite Hc. cbn. rewrite Hu. cbn. rewrite Ha. cbn.
  rewrite <- ?app_assoc. reflexivity.
Qed.

(** X18.  With no input, with no ["host"] in the input or with an EUID
    the validator rejects, the step does not build a gateway and calls
    nothing: it shows the empty form, raises [KeyError], or shows the
    form with the error [invalid_euid] under ["euid"], and the state is
    what it was. *)
Theorem step_without_valid_input_touches_nothing s :
  async_step_user None s = (Return (ShowForm "user" data_schema []), s) /\
  (forall user_input,
      PyDict.get String.eqb const.CONF_HOST user_input = None ->
      async_step_user (Some user_input) s =
        (Raise (OtherException "KeyError" "'host'"), s)) /\
  (forall user_input host,
      PyDict.get String.eqb const.CONF_HOST user_input = Some host ->
      config_flow.validate_euid (euid_of user_input) = false ->
      async_step_user (Some user_input) s =
        (Return (ShowForm "user" data_schema [("euid", "invalid_euid")]), s)).
Proof.
  split; [reflexivity|]. split.
  - intros user_input Hh. unfold async_step_user. rewrite Hh. reflexivity.
  - intros user_input host. apply step_invalid_euid.
Qed.

(** X19.  Whenever the input has a host, the step returns a result: no
    exception of the gateway or of the host's flow handler leaves it. *)
Theorem step_never_raises s user_input host :
  PyDict.get String.eqb const.CONF_HOST user_input = Some host ->
  exists result, fst (async_step_user (Some user_input) s) = Return result.
Proof.
  intros Hh.
  destruct (config_flow.validate_euid (euid_of user_input)) eqn:Hv.
  2: { rewrite (step_invalid_euid _ _ _ Hh Hv). cbn [fst]. eauto. }
  set (gw := {| pyit600.host := host; pyit600.euid := euid_of user_input |}).
  destruct (connect gw (env s)) as [[[]|e] w'] eqn:Hc.
  2: { rewrite (step_connect_raises _ _ _ _ _ Hh Hv Hc). cbn [fst]. eauto. }
  destruct (async_set_unique_id host (flow s)) as [[[]|e] h1] eqn:Hu.
  2: { destruct (step_handler_raises s user_input host w' e h1 Hh Hv Hc)
         as (called & _ & Hrun); [auto|]. rewrite Hrun. cbn [fst]. eauto. }
  destruct (_abort_if_unique_id_configured h1) as [[[]|e] h2] eqn:Ha.
  2: { destruct (step_handler_raises s user_input host w' e h2 Hh Hv Hc)
         as (called & _ & Hrun); [eauto|]. rewrite Hrun. cbn [fst]. eauto. }
  rewrite (step_creates_entry _ _ _ _ _ _ Hh Hv Hc Hu Ha). cbn [fst]. eauto.
Qed.

(** X20.  When [connect] fails, the form comes back with the error under
    ["base"]: [invalid_euid] for an authentication error,
    [cannot_connect] for a connection error, [unknown] (and a logged
    exception) for anything else.  The gateway object is not closed and
    the flow handler is not called. *)
Theorem step_reports_connect_failure s user_input host e w' :
  PyDict.get String.eqb const.CONF_HOST user_input = Some host ->
  config_flow.validate_euid (euid_of user_input) = true ->
  let gw := {| pyit600.host := host; pyit600.euid := euid_of user_input |} in
  connect gw (env s) = (Raise e, w') ->
  let out := async_step_user (Some user_input) s in
  fst out =
    Return (ShowForm "user" data_schema
              [("base",
                match e with
                | IT600AuthenticationError _ => "invalid_euid"
                | IT600ConnectionError _ => "cannot_connect"
                | _ => "unknown"
                end)]) /\
  filter is_gateway_call (events (snd out)) =
    (filter is_gateway_call (events s) ++ [Connect gw])%list /\
  flow (snd out) = flow s.
Proof.
  intros Hh Hv gw Hc. cbv zeta.
  rewrite (step_connect_raises _ _ _ _ _ Hh Hv Hc). cbn [fst snd events flow].
  split; [reflexivity|]. split; [|reflexivity].
  rewrite filter_app. destruct e; cbn; reflexivity.
Qed.

(** X21.  An entry is created only after the EUID has passed the
    validator and [connect] has returned; by then the gateway object has
    been closed again and the flow handler asked about the host as
    unique id.  The entry is titled after the host and holds the host
    and the EUID that was validated. *)
Theorem created_entry_was_validated_and_connected s user_input title data :
  fst (async_step_user (Some user_input) s) = Return (CreateEntry title data) ->
  exists host,
    let euid := euid_of user_input in
    let gw := {| pyit600.host := host; pyit600.euid := euid |} in
    PyDict.get String.eqb const.CONF_HOST user_input = Some host /\
    config_flow.validate_euid euid = true /\
    fst (connect gw (env s)) = Return tt /\
    title = "Salus Gateway (" ++ host ++ ")" /\
    data = [("host", host); ("euid", euid)] /\
    events (snd (async_step_user (Some user_input) s)) =
      (events s ++
       [Connect gw; Close gw; SetUniqueId host; AbortIfUniqueIdConfigured])%list.
Proof.
  intros Hres.
  destruct (PyDict.get String.eqb const.CONF_HOST user_input) as [host|] eqn:Hh.
  2: { unfold async_step_user in Hres. rewrite Hh in Hres. discriminate. }
  exists host. cbv zeta.
  destruct (config_flow.validate_euid (euid_of user_input)) eqn:Hv.
  2: { rewrite (step_invalid_euid _ _ _ Hh Hv) in Hres. discriminate. }
  set (gw := {| pyit600.host := host; pyit600.euid := euid_of user_input |}).
  destruct (connect gw (env s)) as [[[]|e] w'] eqn:Hc.
  2: { rewrite (step_connect_raises _ _ _ _ _ Hh Hv Hc) in Hres. discriminate. }
  destruct (async_set_unique_id host (flow s)) as [[[]|e] h1] eqn:Hu.
  2: { destruct (step_handler_raises s user_input host w' e h1 Hh Hv Hc)
         as (called & _ & Hrun); [auto|]. rewrite Hrun in Hres. discriminate. }
  destruct (_abort_if_unique_id_configured h1) as [[[]|e] h2] eqn:Ha.
  2: { destruct (step_handler_raises s user_input host w' e h2 Hh Hv Hc)
         as (called & _ & Hrun); [eauto|]. rewrite Hrun in Hres. discriminate. }
  rewrite (step_creates_entry _ _ _ _ _ _ Hh Hv Hc Hu Ha) in Hres |- *.
  cbn in Hres. injection Hres as <- <-. repeat split.
Qed.

(** X22.  An exception of the flow handler's unique-id calls is caught
    by the step's last handler like any other: the host's refusal of a
    host that is already configured does not end the flow, the form is
    shown again with [unknown] under ["base"] and the exception is
    logged.  By then the gateway has been connected and closed. *)
Theorem step_swallows_handler_exception s user_input host w' e h' :
  PyDict.get String.eqb const.CONF_HOST user_input = Some host ->
  config_flow.validate_euid (euid_of user_input) = true ->
  let gw := {| pyit600.host := host; pyit600.euid := euid_of user_input |} in
  connect gw (env s) = (Return tt, w') ->
  (async_set_unique_id host (flow s) = (Raise e, h') \/
   exists h1, async_set_unique_id host (flow s) = (Return tt, h1) /\
              _abort_if_unique_id_configured h1 = (Raise e, h')) ->
  (forall m, e <> IT600AuthenticationError m) ->
  (forall m, e <> IT600ConnectionError m) ->
  let out := async_step_user (Some user_input) s in
  fst out = Return (ShowForm "user" data_schema [("base", "unknown")]) /\
  filter is_gateway_call (events (snd out)) =
    (filter is_gateway_call (events s) ++ [Connect gw; Close gw])%list /\
  In (LogException "Unexpected exception during connection" e) (events (snd out)).
Proof.
  intros Hh Hv gw Hc Hfail Hna Hnc. cbv zeta.
  destruct (step_handler_raises s user_input host w' e h' Hh Hv Hc Hfail)
    as (called & Hcalled & Hrun).
  rewrite Hrun. cbn [fst snd events].
  assert (He : match e with
               | IT600AuthenticationError _ | IT600ConnectionError _ => []
               | _ => [LogException "Unexpected exception during connection" e]
               end = [LogException "Unexpected exception during connection" e]).
  { destruct e; try reflexivity.
    - exfalso. eapply Hna. reflexivity.
    - exfalso. eapply Hnc. reflexivity. }
  rewrite He. split; [|split].
  - destruct e; try reflexivity.
    + exfalso. eapply Hna. reflexivity.
    + exfalso. eapply Hnc. reflexivity.
  - rewrite !filter_app.
    destruct Hcalled as [-> | ->]; cbn; rewrite ?app_nil_r; reflexivity.
  - apply in_or_app. right. apply in_or_app. right.
    apply in_or_app. right. left. reflexivity.
Qed.

(** X23.  An input without ["euid"] is handled with the default EUID,
    sixteen zeros, which the validator accepts: the step goes on to
    connect a gateway object built with it. *)
Theorem step_defaults_euid s user_input host :
  PyDict.get String.eqb const.CONF_HOST user_input = Some host ->
  PyDict.get String.eqb const.CONF_EUID user_input = None ->
  exists tail,
    events (snd (async_step_user (Some user_input) s)) =
      (events s ++
       Connect {| pyit600.host := host; pyit600.euid := "0000000000000000" |}
       :: tail)%list.
Proof.
  intros Hh He.
  assert (Heuid : euid_of user_input = "0000000000000000").
  { unfold PyDict.get_default. rewrite He. reflexivity. }
  assert (Hv : config_flow.validate_euid (euid_of user_input) = true)
    by (rewrite Heuid; reflexivity).
  set (gw := {| pyit600.host := host; pyit600.euid := euid_of user_input |}).
  assert (Hgw : gw = {| pyit600.host := host; pyit600.euid := "0000000000000000" |})
    by (unfold gw; rewrite Heuid; reflexivity).
  rewrite <- Hgw.
  destruct (connect gw (env s)) as [[[]|e] w'] eqn:Hc.
  2: { rewrite (step_connect_raises _ _ _ _ _ Hh Hv Hc). cbn. eauto. }
  destruct (async_set_unique_id host (flow s)) as [[[]|e] h1] eqn:Hu.
  2: { destruct (step_handler_raises s user_input host w' e h1 Hh Hv Hc)
         as (called & _ & Hrun); [auto|]. rewrite Hrun. cbn. eauto. }
  destruct (_abort_if_unique_id_configured h1) as [[[]|e] h2] eqn:Ha.
  2: { destruct (step_handler_raises s user_input host w' e h2 Hh Hv Hc)
         as (called & _ & Hrun); [eauto|]. rewrite Hrun. cbn. eauto. }
  rewrite (step_creates_entry _ _ _ _ _ _ Hh Hv Hc Hu Ha). cbn. eauto.
Qed.

Lemma length_append (a b : string) :
  String.length (a ++ b) = String.length a + String.length b.
Proof. induction a as [|c a IH]; cbn; [reflexivity | rewrite IH; reflexivity]. Qed.

(** X24.  Sixteen hexadecimal digits followed by a newline are not only
    accepted by the validator: the step connects with that EUID and, all
    going well, stores it in the entry with its newline. *)
Theorem step_stores_euid_with_newline s host h w' h1 h2 :
  config_flow.is_euid_format h = true ->
  let euid := (h ++ String config_flow.newline "")%string in
  let user_input := [("host", host); ("euid", euid)] in
  let gw := {| pyit600.host := host; pyit600.euid := euid |} in
  connect gw (env s) = (Return tt, w') ->
  async_set_unique_id host (flow s) = (Return tt, h1) ->
  _abort_if_unique_id_configured h1 = (Return tt, h2) ->
  fst (async_step_user (Some user_input) s) =
    Return (CreateEntry ("Salus Gateway (" ++ host ++ ")")
              [("host", host); ("euid", euid)]) /\
  config_flow.is_euid_format euid = false.
Proof.
  intros Hfmt euid user_input gw Hc Hu Ha.
  assert (Hv : config_flow.validate_euid euid = true).
  { apply validate_euid_characterisation. right. exists h. auto. }
  split.
  - exact (f_equal fst
             (step_creates_entry s user_input host w' h1 h2 eq_refl Hv Hc Hu Ha)).
  - apply is_euid_format_spec in Hfmt as [Hlen _].
    apply Bool.not_true_is_false. intros Hbad.
    apply is_euid_format_spec in Hbad as [Hlen' _].
    unfold euid in Hlen'. rewrite length_append in Hlen'.
    cbn in Hlen'. rewrite Hlen in Hlen'. discriminate.
Qed.

End FlowFacts.

Lemma step_without_valid_input_touches_nothing_witness :
  let s := scripted_host.flow_world scripted.healthy [] in
  async_step_user (Some [("host", "10.0.0.5"); ("euid", "xyz")]) s =
    (Return (ShowForm "user" data_schema [("euid", "invalid_euid")]), s).
Proof.
  cbv zeta.
  destruct (step_without_valid_input_touches_nothing
              (scripted_host.flow_world scripted.healthy [])) as (_ & _ & Hbad).
  exact (Hbad [("host", "10.0.0.5"); ("euid", "xyz")] "10.0.0.5" eq_refl eq_refl).
Defined.

Lemma step_never_raises_witness :
  exists result,
    fst (async_step_user (Some [("host", "10.0.0.5")])
           (scripted_host.flow_world scripted_host.hangs [])) = Return result.
Proof.
  exact (step_never_raises (scripted_host.flow_world scripted_host.hangs [])
           [("host", "10.0.0.5")] "10.0.0.5" eq_refl).
Defined.

Lemma step_reports_connect_failure_witness :
  let s := scripted_host.flow_world scripted.wrong_euid [] in
  let out := async_step_user (Some [("host", "10.0.0.5"); ("euid", "0011223344556677")]) s in
  fst out = Return (ShowForm "user" data_schema [("base", "invalid_euid")]) /\
  events (snd out) =
    [Connect {| pyit600.host := "10.0.0.5"; pyit600.euid := "0011223344556677" |}].
Proof.
  cbv zeta.
  destruct (step_reports_connect_failure
              (scripted_host.flow_world scripted.wrong_euid [])
              [("host", "10.0.0.5"); ("euid", "0011223344556677")] "10.0.0.5"
              (IT600AuthenticationError "bad euid") scripted.wrong_euid)
    as (Hr & _ & _); [reflexivity | reflexivity | reflexivity |].
  split; [exact Hr | reflexivity].
Defined.

Lemma created_entry_was_validated_and_connected_witness :
  let s := scripted_host.flow_world scripted.healthy [] in
  let user_input := [("host", "10.0.0.5"); ("euid", "0011223344556677")] in
  fst (async_step_user (Some user_input) s) =
    Return (CreateEntry "Salus Gateway (10.0.0.5)" user_input) /\
  config_flow.validate_euid "0011223344556677" = true.
Proof.
  cbv zeta. split; [reflexivity|].
  destruct (created_entry_was_validated_and_connected
              (scripted_host.flow_world scripted.healthy [])
              [("host", "10.0.0.5"); ("euid", "0011223344556677")]
              "Salus Gateway (10.0.0.5)"
              [("host", "10.0.0.5"); ("euid", "0011223344556677")])
    as (host & Hh & Hv & _); [reflexivity|].
  exact Hv.
Defined.

Lemma step_swallows_handler_exception_witness :
  let s := scripted_host.flow_world scripted.healthy ["10.0.0.5"] in
  let out := async_step_user (Some [("host", "10.0.0.5"); ("euid", "0011223344556677")]) s in
  fst out = Return (ShowForm "user" data_schema [("base", "unknown")]).
Proof.
  cbv zeta.
  destruct (step_swallows_handler_exception
              (scripted_host.flow_world scripted.healthy ["10.0.0.5"])
              [("host", "10.0.0.5"); ("euid", "0011223344556677")] "10.0.0.5"
              scripted.healthy (OtherException "AbortFlow" "already_configured")
              {| scripted_host.configured := ["10.0.0.5"];
                 scripted_host.unique_id := Some "10.0.0.5" |})
    as (Hr & _);
    [reflexivity | reflexivity | reflexivity
    | right; eexists; split; reflexivity | discriminate | discriminate |].
  exact Hr.
Defined.

Lemma step_defaults_euid_witness :
  exists tail,
    events (snd (async_step_user (Some [("host", "10.0.0.5")])
                   (scripted_host.flow_world scripted.healthy []))) =
      Connect {| pyit600.host := "10.0.0.5"; pyit600.euid := "0000000000000000" |}
      :: tail.
Proof.
  exact (step_defaults_euid (scripted_host.flow_world scripted.healthy [])
           [("host", "10.0.0.5")] "10.0.0.5" eq_refl eq_refl).
Defined.

Lemma step_stores_euid_with_newline_witness :
  let euid := ("0011223344556677" ++ String config_flow.newline "")%string in
  fst (async_step_user (Some [("host", "10.0.0.5"); ("euid", euid)])
         (scripted_host.flow_world scripted.healthy [])) =
    Return (CreateEntry "Salus Gateway (10.0.0.5)"
              [("host", "10.0.0.5"); ("euid", euid)]).
Proof.
  cbv zeta.
  destruct (step_stores_euid_with_newline
              (scripted_host.flow_world scripted.healthy []) "10.0.0.5"
              "0011223344556677" scripted.healthy
              {| scripted_host.configured := [];
                 scripted_host.unique_id := Some "10.0.0.5" |}
              {| scripted_host.configured := [];
                 scripted_host.unique_id := Some "10.0.0.5" |})
    as [Hr _]; [reflexivity | reflexivity | reflexivity | reflexivity |].
  exact Hr.
Defined.

End flow_facts.

(** ** Set-up and unloading of a config entry *)

Module Import integration_facts.

Import integration.

Lemma get_set_same {V} k (v : V) d :
  PyDict.get String.eqb k (PyDict.set String.eqb k v d) = Some v.
Proof.
  induction d as [|[k' v'] d IH]; cbn.
  - rewrite String.eqb_refl. reflexivity.
  - destruct (String.eqb k k') eqn:Hk; cbn; rewrite Hk; auto.
Qed.

Lemma get_set_other {V} k k' (v : V) d :
  k' <> k ->
  PyDict.get String.eqb k' (PyDict.set String.eqb k v d) =
    PyDict.get String.eqb k' d.
Proof.
  intros Hne. induction d as [|[k0 v0] d IH]; cbn.
  - destruct (String.eqb_spec k' k); [contradiction | reflexivity].
  - destruct (String.eqb_spec k k0) as [-> | Hk0]; cbn.
    + destruct (String.eqb_spec k' k0); [contradiction | reflexivity].
    + destruct (String.eqb k' k0); auto.
Qed.

Lemma remove_set_absent {V} k (v : V) d :
  PyDict.get String.eqb k d = None ->
  remove k (PyDict.set String.eqb k v d) = d.
Proof.
  induction d as [|[k' v'] d IH]; cbn.
  - rewrite String.eqb_refl. reflexivity.
  - destruct (String.eqb k k') eqn:Hk; [discriminate|].
    intros Hget. cbn. rewrite Hk, IH; auto.
Qed.

Lemma get_setdefault {V} k (v : V) d :
  PyDict.get String.eqb k (setdefault k v d) =
    Some (PyDict.get_default String.eqb k v d).
Proof.
  unfold setdefault, PyDict.get_default.
  destruct (PyDict.get String.eqb k d) eqn:Hget; [exact Hget|].
  apply get_set_same.
Qed.

Ltac hass_unfold :=
  cbv beta delta
    [bind ret raise gets modify subscript host_call on_coordinator
     integration.emit set_hass_data async_config_entry_first_refresh].

#[local] Arguments coordinator._async_update_data : simpl never.
#[local] Arguments coordinator.async_close : simpl never.
#[local] Arguments climate.async_setup_entry : simpl never.
#[local] Arguments load : simpl never.

Section IntegrationFacts.
Context {W : Type} {lib : GatewayLibrary W}.
Context {H : Type} {host : ConfigEntries H}.
Implicit Types (h : Hass W H) (entry : ConfigEntry).

Local Abbreviation setting_up host_name :=
  (Debug "Setting up Salus integration for gateway at %s"
     [coordinator.ArgStr host_name]).

Lemma setup_refresh_fails entry h host_name euid e s' :
  PyDict.get String.eqb const.CONF_HOST (entry_data entry) = Some host_name ->
  PyDict.get String.eqb const.CONF_EUID (entry_data entry) = Some euid ->
  _async_update_data (load (new_coordinator host_name euid) h) = (Raise e, s') ->
  async_setup_entry entry h =
    (Raise match e with
           | ConfigEntryAuthFailed _ => e
           | _ => ConfigEntryNotReady e
           end,
     {| hass_data := hass_data h;
        env := coordinator.env s';
        config_entries := config_entries h;
        events :=
          ((integration.events h ++ [setting_up host_name]) ++
           map OfCoordinator (coordinator.events s'))%list |}).
Proof.
  intros Hh He Hrun. unfold async_setup_entry. hass_unfold.
  rewrite Hh, He. cbn.
  change (load (new_coordinator host_name euid) _)
    with (load (new_coordinator host_name euid) h).
  rewrite Hrun. reflexivity.
Qed.

Lemma setup_refresh_ok entry h host_name euid d s' r c' :
  PyDict.get String.eqb const.CONF_HOST (entry_data entry) = Some host_name ->
  PyDict.get String.eqb const.CONF_EUID (entry_data entry) = Some euid ->
  _async_update_data (load (new_coordinator host_name euid) h) = (Return d, s') ->
  async_forward_entry_setups entry const.PLATFORMS (config_entries h) = (r, c') ->
  async_setup_entry entry h =
    (match r with Return _ => Return true | Raise e => Raise e end,
     {| hass_data :=
          PyDict.set String.eqb const.DOMAIN
            (PyDict.set String.eqb (entry_id entry)
               (store (publish (Some d) true s'))
               (PyDict.get_default String.eqb const.DOMAIN [] (hass_data h)))
            (setdefault const.DOMAIN [] (hass_data h));
        env := coordinator.env s';
        config_entries := c';
        events :=
          (((integration.events h ++ [setting_up host_name]) ++
            map OfCoordinator (coordinator.events s')) ++
           [ForwardEntrySetups (entry_id entry) const.PLATFORMS])%list |}).
Proof.
  intros Hh He Hrun Hf. unfold async_setup_entry. hass_unfold.
  rewrite Hh, He. cbn.
  change (load (new_coordinator host_name euid) _)
    with (load (new_coordinator host_name euid) h).
  rewrite Hrun. cbn.
  rewrite get_setdefault. cbn. rewrite Hf.
  destruct r as [[]|e]; reflexivity.
Qed.

Local Abbreviation unloading := (Debug "Unloading Salus integration" []).

Lemma unload_refused entry h c' :
  async_unload_platforms entry const.PLATFORMS (config_entries h) = (Return false, c') ->
  async_unload_entry entry h =
    (Return false,
     {| hass_data := hass_data h; env := env h; config_entries := c';
        events :=
          ((integration.events h ++ [unloading]) ++
           [UnloadPlatforms (entry_id entry) const.PLATFORMS])%list |}).
Proof.
  intros Hu. unfold async_unload_entry. hass_unfold. cbn. rewrite Hu. reflexivity.
Qed.

Lemma unload_accepted entry h c' registry c :
  async_unload_platforms entry const.PLATFORMS (config_entries h) = (Return true, c') ->
  PyDict.get String.eqb const.DOMAIN (hass_data h) = Some registry ->
  PyDict.get String.eqb (entry_id entry) registry = Some c ->
  async_unload_entry entry h =
    (Return true,
     {| hass_data :=
          PyDict.set String.eqb const.DOMAIN (remove (entry_id entry) registry)
            (hass_data h);
        env := coordinator.env (snd (async_close (load c h)));
        config_entries := c';
        events :=
          (((integration.events h ++ [unloading]) ++
            [UnloadPlatforms (entry_id entry) const.PLATFORMS]) ++
           map OfCoordinator (coordinator.events (snd (async_close (load c h)))))%list |}).
Proof.
  intros Hu Hreg Hc. unfold async_unload_entry. hass_unfold. cbn.
  rewrite Hu. cbn. rewrite Hreg. rewrite Hc. cbn.
  match goal with
  | |- context [async_close (load c ?h')] =>
      change (load c h') with (load c h)
  end.
  pose proof (async_close_returns (load c h)) as [Hr _].
  destruct (async_close (load c h)) as [r s']. cbn in Hr. subst r. reflexivity.
Qed.

(** X25.  Unloading an entry whose coordinator is not in [hass.data]
    raises [KeyError], for the domain or for the entry id, once the host
    has unloaded the platforms; [hass.data] is left as it was. *)
Theorem unload_of_unregistered_entry_raises entry h c' :
  async_unload_platforms entry const.PLATFORMS (config_entries h) = (Return true, c') ->
  (PyDict.get String.eqb const.DOMAIN (hass_data h) = None \/
   exists registry,
     PyDict.get String.eqb const.DOMAIN (hass_data h) = Some registry /\
     PyDict.get String.eqb (entry_id entry) registry = None) ->
  exists key,
    async_unload_entry entry h =
      (Raise (OtherException "KeyError" ("'" ++ key ++ "'")),
       {| hass_data := hass_data h; env := env h; config_entries := c';
          events :=
            ((integration.events h ++ [unloading]) ++
             [UnloadPlatforms (entry_id entry) const.PLATFORMS])%list |}) /\
    (key = const.DOMAIN \/ key = entry_id entry).
Proof.
  intros Hu Hmiss. unfold async_unload_entry. hass_unfold. cbn. rewrite Hu. cbn.
  destruct Hmiss as [Hreg | (registry & Hreg & Hc)]; rewrite Hreg; cbn.
  - exists const.DOMAIN. auto.
  - rewrite Hc. cbn. exists (entry_id entry). auto.
Qed.

(** What one [_async_update_data] adds to the trace holds no [close]. *)
Lemma update_data_never_closes (s : World W) :
  exists added,
    coordinator.events (snd (_async_update_data s)) =
      (coordinator.events s ++ added)%list /\
    filter is_close (map OfCoordinator added) = [].
Proof.
  destruct (_gateway s) as [gw|] eqn:Hg.
  - destruct (steady_poll_events _ _ Hg) as (tail & Hev & Htail).
    eexists. split; [exact Hev|].
    destruct Htail as [-> | [-> | (n & ->)]]; reflexivity.
  - destruct (connect (gateway_of s) (coordinator.env s)) as [[[]|e] w'] eqn:Hc.
    + rewrite (_async_update_data_bootstrap _ _ Hg Hc).
      destruct (steady_poll_events (connected s w') (gateway_of s) eq_refl)
        as (tail & Hev & Htail).
      rewrite Hev. cbn. rewrite <- !app_assoc.
      eexists. split; [reflexivity|].
      destruct Htail as [-> | [-> | (n & ->)]]; reflexivity.
    + destruct (_async_setup_raises _ _ _ Hc) as (e' & s' & Hs).
      pose proof (_async_setup_failed_state _ _ _ Hc) as Hst.
      rewrite Hs in Hst. cbn in Hst.
      rewrite (_async_update_data_setup_fails _ _ _ Hg Hs). cbn [snd].
      subst s'. cbn. rewrite <- !app_assoc.
      eexists. split; [reflexivity|]. reflexivity.
Qed.

(** X26.  When the first refresh fails, [async_setup_entry] raises
    (the authentication failure as it is, anything else as
    [ConfigEntryNotReady]) before it has touched [hass.data] or forwarded
    the entry to the platforms.  It does not close the gateway either,
    not even when the connection had been made and only the poll
    failed. *)
Theorem failed_setup_registers_nothing entry h host_name euid e :
  PyDict.get String.eqb const.CONF_HOST (entry_data entry) = Some host_name ->
  PyDict.get String.eqb const.CONF_EUID (entry_data entry) = Some euid ->
  fst (_async_update_data (load (new_coordinator host_name euid) h)) = Raise e ->
  let out := async_setup_entry entry h in
  fst out = Raise match e with
                  | ConfigEntryAuthFailed _ => e
                  | _ => ConfigEntryNotReady e
                  end /\
  hass_data (snd out) = hass_data h /\
  filter is_forward (integration.events (snd out)) =
    filter is_forward (integration.events h) /\
  filter is_close (integration.events (snd out)) =
    filter is_close (integration.events h).
Proof.
  intros Hh He Hfail. cbv zeta.
  destruct (update_data_never_closes (load (new_coordinator host_name euid) h))
    as (added & Hev & Hclose).
  destruct (_async_update_data (load (new_coordinator host_name euid) h))
    as [r s'] eqn:Hrun.
  unfold load in Hev. cbn in Hfail, Hev. subst r.
  rewrite (setup_refresh_fails _ _ _ _ _ _ Hh He Hrun). cbn [fst snd hass_data integration.events].
  split; [reflexivity|]. split; [reflexivity|].
  rewrite Hev. rewrite !filter_app. cbn [filter is_forward is_close].
  rewrite Hclose, !app_nil_r. split; [|reflexivity].
  clear. induction added as [|a added IH]; cbn; [apply app_nil_r | exact IH].
Qed.

Lemma first_poll_ok h host_name euid devs w1 w2 w3 :
  let gw := {| pyit600.host := host_name; pyit600.euid := euid |} in
  connect gw (env h) = (Return tt, w1) ->
  poll_status gw w1 = (Return tt, w2) ->
  get_climate_devices gw w2 = (Return devs, w3) ->
  exists s',
    _async_update_data (load (new_coordinator host_name euid) h) =
      (Return [("climate", devs)], s') /\
    store s' = {| obj_host := host_name; obj_euid := euid;
                  obj_gateway := Some gw; obj_data := None;
                  obj_last_update_success := true |} /\
    coordinator.env s' = w3 /\
    coordinator.events s' =
      [Log DEBUG "Connecting to Salus gateway at %s" [ArgStr host_name];
       GwConnect;
       Log DEBUG "Successfully connected to Salus gateway" [];
       GwPollStatus; GwGetClimateDevices;
       Log DEBUG "Polled %d climate devices" [ArgInt (List.length devs)]].
Proof.
  intros gw Hc Hp Hd.
  set (s0 := load (new_coordinator host_name euid) h).
  assert (Hg0 : _gateway s0 = None) by reflexivity.
  assert (Hc0 : connect (gateway_of s0) (coordinator.env s0) = (Return tt, w1))
    by exact Hc.
  rewrite (_async_update_data_bootstrap _ _ Hg0 Hc0).
  assert (Hg1 : _gateway (connected s0 w1) = Some gw) by reflexivity.
  assert (Hp1 : poll_status gw (coordinator.env (connected s0 w1)) = (Return tt, w2))
    by exact Hp.
  rewrite (_async_update_data_ok _ _ _ _ _ Hg1 Hp1 Hd).
  eexists. split; [reflexivity|]. repeat split.
Qed.

(** X27.  When the gateway connects, answers the first poll and gives
    its devices, [async_setup_entry] returns [True] with the coordinator
    stored in [hass.data] under the domain and the entry id: connected,
    holding the snapshot of that poll.  The coordinators of other entries
    stay where they are, and the platforms are forwarded to only after
    the poll. *)
Theorem successful_setup_registers_coordinator entry h host_name euid devs w1 w2 w3 c' :
  PyDict.get String.eqb const.CONF_HOST (entry_data entry) = Some host_name ->
  PyDict.get String.eqb const.CONF_EUID (entry_data entry) = Some euid ->
  let gw := {| pyit600.host := host_name; pyit600.euid := euid |} in
  connect gw (env h) = (Return tt, w1) ->
  poll_status gw w1 = (Return tt, w2) ->
  get_climate_devices gw w2 = (Return devs, w3) ->
  async_forward_entry_setups entry const.PLATFORMS (config_entries h) = (Return tt, c') ->
  let out := async_setup_entry entry h in
  let before := PyDict.get_default String.eqb const.DOMAIN [] (hass_data h) in
  let after := PyDict.get_default String.eqb const.DOMAIN [] (hass_data (snd out)) in
  fst out = Return true /\
  PyDict.get String.eqb (entry_id entry) after =
    Some {| obj_host := host_name; obj_euid := euid; obj_gateway := Some gw;
            obj_data := Some [("climate", devs)];
            obj_last_update_success := true |} /\
  (forall other, other <> entry_id entry ->
     PyDict.get String.eqb other after = PyDict.get String.eqb other before) /\
  integration.events (snd out) =
    (integration.events h ++
     [setting_up host_name;
      OfCoordinator (Log DEBUG "Connecting to Salus gateway at %s" [ArgStr host_name]);
      OfCoordinator GwConnect;
      OfCoordinator (Log DEBUG "Successfully connected to Salus gateway" []);
      OfCoordinator GwPollStatus;
      OfCoordinator GwGetClimateDevices;
      OfCoordinator (Log DEBUG "Polled %d climate devices" [ArgInt (List.length devs)]);
      ForwardEntrySetups (entry_id entry) const.PLATFORMS])%list.
Proof.
  intros Hh He gw Hc Hp Hd Hf. cbv zeta.
  destruct (first_poll_ok h host_name euid devs w1 w2 w3 Hc Hp Hd)
    as (s' & Hrun & Hstore & Henv & Hev).
  rewrite (setup_refresh_ok _ _ _ _ _ _ _ _ Hh He Hrun Hf).
  cbn [fst snd hass_data integration.events].
  match goal with
  | |- context [PyDict.set String.eqb const.DOMAIN ?X ?D] =>
      set (registry := X); set (data := D)
  end.
  assert (Hafter : PyDict.get_default String.eqb const.DOMAIN []
                     (PyDict.set String.eqb const.DOMAIN registry data) = registry)
    by (unfold PyDict.get_default; rewrite get_set_same; reflexivity).
  rewrite Hafter. unfold registry.
  match goal with
  | |- context [PyDict.set String.eqb (entry_id entry) ?o _] =>
      assert (Hobj : o =
                {| obj_host := host_name; obj_euid := euid; obj_gateway := Some gw;
                   obj_data := Some [("climate", devs)];
                   obj_last_update_success := true |})
  end.
  { unfold store in *. cbn. injection Hstore as -> -> -> _ _. reflexivity. }
  rewrite Hobj. split; [reflexivity|]. split; [apply get_set_same|].
  split; [intros other Hne; apply get_set_other; exact Hne|].
  rewrite Hev. cbn. rewrite <- !app_assoc. reflexivity.
Qed.

(** X28.  [async_unload_entry] returns what the host's unloading of the
    platforms returned.  When that is [False], the coordinator stays in
    [hass.data] and its gateway stays open; when it is [True], the
    coordinator is taken out of [hass.data] and closed, which calls the
    gateway's [close] once if it holds a gateway object and not at all
    otherwise. *)
Theorem unload_pops_and_closes entry h registry c c' :
  PyDict.get String.eqb const.DOMAIN (hass_data h) = Some registry ->
  PyDict.get String.eqb (entry_id entry) registry = Some c ->
  let out := async_unload_entry entry h in
  (async_unload_platforms entry const.PLATFORMS (config_entries h) = (Return false, c') ->
   fst out = Return false /\
   hass_data (snd out) = hass_data h /\
   env (snd out) = env h /\
   filter is_close (integration.events (snd out)) =
     filter is_close (integration.events h)) /\
  (async_unload_platforms entry const.PLATFORMS (config_entries h) = (Return true, c') ->
   fst out = Return true /\
   hass_data (snd out) =
     PyDict.set String.eqb const.DOMAIN (remove (entry_id entry) registry)
       (hass_data h) /\
   filter is_close (integration.events (snd out)) =
     (filter is_close (integration.events h) ++
      match obj_gateway c with
      | Some _ => [OfCoordinator GwClose]
      | None => []
      end)%list).
Proof.
  intros Hreg Hc. cbv zeta. split; intros Hu.
  - rewrite (unload_refused _ _ _ Hu). cbn [fst snd hass_data env integration.events].
    repeat split. rewrite !filter_app. cbn. rewrite !app_nil_r. reflexivity.
  - rewrite (unload_accepted _ _ _ _ _ Hu Hreg Hc).
    cbn [fst snd hass_data integration.events].
    split; [reflexivity|]. split; [reflexivity|].
    rewrite !filter_app. cbn [filter is_close]. rewrite !app_nil_r.
    f_equal.
    destruct (obj_gateway c) as [gw|] eqn:Hg.
    + rewrite (async_close_open (load c h) gw Hg). reflexivity.
    + rewrite (async_close_closed (load c h) Hg). reflexivity.
Qed.

(** X29.  Setting an entry up and unloading it again leaves the
    registry of the domain as it was before (empty, if there was none),
    provided the entry was not registered already; on the way the
    gateway has been connected, polled and closed, in that order. *)
Theorem setup_then_unload_restores_registry entry h host_name euid devs w1 w2 w3 c1 c2 :
  PyDict.get String.eqb const.CONF_HOST (entry_data entry) = Some host_name ->
  PyDict.get String.eqb const.CONF_EUID (entry_data entry) = Some euid ->
  let gw := {| pyit600.host := host_name; pyit600.euid := euid |} in
  let before := PyDict.get_default String.eqb const.DOMAIN [] (hass_data h) in
  PyDict.get String.eqb (entry_id entry) before = None ->
  connect gw (env h) = (Return tt, w1) ->
  poll_status gw w1 = (Return tt, w2) ->
  get_climate_devices gw w2 = (Return devs, w3) ->
  async_forward_entry_setups entry const.PLATFORMS (config_entries h) = (Return tt, c1) ->
  async_unload_platforms entry const.PLATFORMS c1 = (Return true, c2) ->
  let h1 := snd (async_setup_entry entry h) in
  let out := async_unload_entry entry h1 in
  fst out = Return true /\
  PyDict.get String.eqb const.DOMAIN (hass_data (snd out)) = Some before /\
  env (snd out) = close gw w3 /\
  filter (fun e => match e with
                   | OfCoordinator e' => coordinator.is_gateway_call e'
                   | _ => false
                   end) (integration.events (snd out)) =
    (filter (fun e => match e with
                      | OfCoordinator e' => coordinator.is_gateway_call e'
                      | _ => false
                      end) (integration.events h) ++
     [OfCoordinator GwConnect; OfCoordinator GwPollStatus;
      OfCoordinator GwGetClimateDevices; OfCoordinator GwClose])%list.
Proof.
  intros Hh He gw before Hfresh Hc Hp Hd Hf Hu. cbv zeta.
  destruct (first_poll_ok h host_name euid devs w1 w2 w3 Hc Hp Hd)
    as (s' & Hrun & Hstore & Henv & Hev).
  rewrite (setup_refresh_ok _ _ _ _ _ _ _ _ Hh He Hrun Hf). cbn [snd].
  match goal with
  | |- context [PyDict.set String.eqb (entry_id entry) ?o _] => set (obj := o)
  end.
  assert (Hgw : obj_gateway obj = Some gw).
  { unfold obj, store in *. cbn. injection Hstore as _ _ -> _ _. reflexivity. }
  match goal with
  | |- context [async_unload_entry entry ?x] => set (h1 := x)
  end.
  assert (Hreg1 : PyDict.get String.eqb const.DOMAIN (hass_data h1) =
                  Some (PyDict.set String.eqb (entry_id entry) obj before))
    by apply get_set_same.
  assert (Hc1 : PyDict.get String.eqb (entry_id entry)
                  (PyDict.set String.eqb (entry_id entry) obj before) = Some obj)
    by apply get_set_same.
  assert (Hu1 : async_unload_platforms entry const.PLATFORMS (config_entries h1) =
                (Return true, c2)) by exact Hu.
  rewrite (unload_accepted _ _ _ _ _ Hu1 Hreg1 Hc1).
  cbn [fst snd hass_data env integration.events].
  rewrite (async_close_open (load obj h1) gw Hgw).
  split; [reflexivity|]. split; [|split].
  - rewrite (remove_set_absent _ _ _ Hfresh). apply get_set_same.
  - unfold load, h1. cbn. rewrite Henv. reflexivity.
  - unfold load, h1. cbn [snd coordinator.events emit set_gateway set_env integration.events].
    rewrite Hev.
    rewrite !filter_app. cbn. rewrite !app_nil_r. rewrite <- !app_assoc.
    reflexivity.
Qed.

(** X30.  After such a set-up the climate platform finds the
    coordinator of the entry in [hass.data] and builds one entity for
    each device of the first poll, in the gateway's order, with the
    unique id ["<entry id>_<device id>"]. *)
Theorem setup_yields_one_entity_per_polled_device
    entry h host_name euid devs w1 w2 w3 c' :
  PyDict.get String.eqb const.CONF_HOST (entry_data entry) = Some host_name ->
  PyDict.get String.eqb const.CONF_EUID (entry_data entry) = Some euid ->
  let gw := {| pyit600.host := host_name; pyit600.euid := euid |} in
  connect gw (env h) = (Return tt, w1) ->
  poll_status gw w1 = (Return tt, w2) ->
  get_climate_devices gw w2 = (Return devs, w3) ->
  async_forward_entry_setups entry const.PLATFORMS (config_entries h) = (Return tt, c') ->
  let h1 := snd (async_setup_entry entry h) in
  fst (climate_async_setup_entry entry h1) =
    Return (map (fun device_id => climate.new_entity device_id (entry_id entry))
                (PyDict.keys devs)) /\
  hass_data (snd (climate_async_setup_entry entry h1)) = hass_data h1.
Proof.
  intros Hh He gw Hc Hp Hd Hf. cbv zeta.
  destruct (first_poll_ok h host_name euid devs w1 w2 w3 Hc Hp Hd)
    as (s' & Hrun & Hstore & Henv & Hev).
  rewrite (setup_refresh_ok _ _ _ _ _ _ _ _ Hh He Hrun Hf). cbn [snd].
  match goal with
  | |- context [PyDict.set String.eqb (entry_id entry) ?o ?r] =>
      set (obj := o); set (before := r)
  end.
  match goal with
  | |- context [climate_async_setup_entry entry ?x] => set (h1 := x)
  end.
  assert (Hreg1 : PyDict.get String.eqb const.DOMAIN (hass_data h1) =
                  Some (PyDict.set String.eqb (entry_id entry) obj before))
    by apply get_set_same.
  assert (Hc1 : PyDict.get String.eqb (entry_id entry)
                  (PyDict.set String.eqb (entry_id entry) obj before) = Some obj)
    by apply get_set_same.
  unfold climate_async_setup_entry. hass_unfold.
  rewrite Hreg1. cbn. rewrite Hc1. cbn.
  unfold climate.async_setup_entry, load. py_unfold. cbn.
  split; reflexivity.
Qed.

End IntegrationFacts.

Lemma setup_yields_one_entity_per_polled_device_witness :
  let h1 := snd (async_setup_entry scripted_host.entry
                   (scripted_host.hass scripted.healthy true)) in
  option_map (map climate._attr_unique_id)
    (match fst (climate_async_setup_entry scripted_host.entry h1) with
     | Return ents => Some ents
     | Raise _ => None
     end) = Some ["entry_dev1"; "entry_dev2"].
Proof.
  cbv zeta.
  destruct (setup_yields_one_entity_per_polled_device scripted_host.entry
              (scripted_host.hass scripted.healthy true)
              "10.0.0.5" "0011223344556677" scripted.devices
              scripted.healthy scripted.healthy scripted.healthy
              {| scripted_host.unloads := true |})
    as (Hr & _);
    [reflexivity | reflexivity | reflexivity | reflexivity | reflexivity
    | reflexivity |].
  rewrite Hr. reflexivity.
Defined.

Lemma failed_setup_registers_nothing_witness :
  let h := scripted_host.hass scripted_host.drops_polls true in
  let out := async_setup_entry scripted_host.entry h in
  fst out = Raise (OtherException "ConfigEntryNotReady" "Connection error: timed out") /\
  hass_data (snd out) = [] /\
  integration.events (snd out) =
    [Debug "Setting up Salus integration for gateway at %s" [ArgStr "10.0.0.5"];
     OfCoordinator (Log DEBUG "Connecting to Salus gateway at %s" [ArgStr "10.0.0.5"]);
     OfCoordinator GwConnect;
     OfCoordinator (Log DEBUG "Successfully connected to Salus gateway" []);
     OfCoordinator GwPollStatus].
Proof.
  cbv zeta.
  destruct (failed_setup_registers_nothing scripted_host.entry
              (scripted_host.hass scripted_host.drops_polls true)
              "10.0.0.5" "0011223344556677"
              (UpdateFailed "Connection error: timed out"))
    as (Hr & Hd & _); [reflexivity | reflexivity | reflexivity |].
  split; [exact Hr|]. split; [exact Hd | reflexivity].
Defined.

Lemma unload_of_unregistered_entry_raises_witness :
  exists key,
    fst (async_unload_entry scripted_host.entry
           (scripted_host.hass scripted.healthy true)) =
      Raise (OtherException "KeyError" ("'" ++ key ++ "'")).
Proof.
  destruct (unload_of_unregistered_entry_raises scripted_host.entry
              (scripted_host.hass scripted.healthy true)
              {| scripted_host.unloads := true |})
    as (key & Hrun & _); [reflexivity | left; reflexivity |].
  exists key. rewrite Hrun. reflexivity.
Defined.

Lemma successful_setup_registers_coordinator_witness :
  let h := scripted_host.hass scripted.healthy true in
  let out := async_setup_entry scripted_host.entry h in
  fst out = Return true /\
  option_map obj_data
    (PyDict.get String.eqb "entry"
       (PyDict.get_default String.eqb "salus" [] (hass_data (snd out)))) =
    Some (Some [("climate", scripted.devices)]).
Proof.
  cbv zeta.
  destruct (successful_setup_registers_coordinator scripted_host.entry
              (scripted_host.hass scripted.healthy true)
              "10.0.0.5" "0011223344556677" scripted.devices
              scripted.healthy scripted.healthy scripted.healthy
              {| scripted_host.unloads := true |})
    as (Hr & Hobj & _);
    [reflexivity | reflexivity | reflexivity | reflexivity | reflexivity
    | reflexivity |].
  split; [exact Hr|].
  change "entry" with (entry_id scripted_host.entry).
  change "salus" with const.DOMAIN.
  rewrite Hobj. reflexivity.
Defined.

Lemma unload_pops_and_closes_witness :
  let h := snd (async_setup_entry scripted_host.entry
                  (scripted_host.hass scripted.healthy false)) in
  fst (async_unload_entry scripted_host.entry h) = Return false /\
  hass_data (snd (async_unload_entry scripted_host.entry h)) = hass_data h.
Proof.
  cbv zeta.
  edestruct (unload_pops_and_closes scripted_host.entry
               (snd (async_setup_entry scripted_host.entry
                       (scripted_host.hass scripted.healthy false))))
    as [Hrefused _]; [reflexivity | reflexivity |].
  destruct (Hrefused eq_refl) as (Hr & Hd & _).
  split; [exact Hr | exact Hd].
Defined.

Lemma setup_then_unload_restores_registry_witness :
  let h := scripted_host.hass scripted.healthy true in
  let h1 := snd (async_setup_entry scripted_host.entry h) in
  let out := async_unload_entry scripted_host.entry h1 in
  fst out = Return true /\
  PyDict.get String.eqb "salus" (hass_data (snd out)) = Some [].
Proof.
  cbv zeta.
  destruct (setup_then_unload_restores_registry scripted_host.entry
              (scripted_host.hass scripted.healthy true)
              "10.0.0.5" "0011223344556677" scripted.devices
              scripted.healthy scripted.healthy scripted.healthy
              {| scripted_host.unloads := true |}
              {| scripted_host.unloads := true |})
    as (Hr & Hd & _);
    [reflexivity | reflexivity | reflexivity | reflexivity | reflexivity
    | reflexivity | reflexivity | reflexivity |].
  split; [exact Hr | exact Hd].
Defined.

End integration_facts.
